(** * Browser-automation scripts for the chart "Indicators" menu

    A shallow embedding of the four Playwright scripts of the repository
    ([test-indicators.py], [debug-indicators.py], [capture-console.py],
    [get-console.py]) and the properties of their runs.

    Each script is a straight-line Python function.  It is embedded as a
    computation in a small monad that reads the outside world (what the
    browser does at each call), threads the script's state, and
    propagates a raised exception. *)

From Stdlib Require Import List NArith String Ascii Bool Arith Lia.
From Stdlib Require Import DecimalString.
Import ListNotations.

(** ** Python strings *)

(** A Python [str] is a sequence of Unicode code points. *)
Definition pystr := list N.

(** An ASCII literal of the source, as code points. *)
Definition lit (s : string) : pystr :=
  map N_of_ascii (list_ascii_of_string s).

Definition dq : pystr := [34%N].        (* the double quote character *)
Definition nl : pystr := [10%N].        (* "\n" *)
Definition check_mark : pystr := [10003%N].       (* U+2713 *)
Definition ballot_x : pystr := [10007%N].         (* U+2717 *)
Definition magnifier : pystr := [128269%N].       (* U+1F50D *)

(** [str(n)] for a non-negative length. *)
Definition str_of_nat (n : nat) : pystr :=
  lit (NilEmpty.string_of_uint (Nat.to_uint n)).

Definition pystr_eqb (a b : pystr) : bool :=
  if list_eq_dec N.eq_dec a b then true else false.

(** [starts_with p s]: [s] begins with [p]. *)
Fixpoint starts_with (p s : pystr) : bool :=
  match p, s with
  | [], _ => true
  | _ :: _, [] => false
  | a :: p', b :: s' => N.eqb a b && starts_with p' s'
  end.

(** Python's [needle in hay] on strings. *)
Fixpoint contains (needle hay : pystr) : bool :=
  starts_with needle hay ||
  match hay with
  | [] => false
  | _ :: hay' => contains needle hay'
  end.

(** ASCII lower-casing of one code point. *)
Definition ascii_lower (c : N) : N :=
  if (65 <=? c)%N && (c <=? 90)%N then (c + 32)%N else c.

(** ** The outside world *)

Definition exn := pystr.

(** A console message of the page: [msg.type] and [msg.text]. *)
Record ConsoleMessage := { msg_type : pystr; msg_text : pystr }.

(** Everything a run depends on that is not in the script's text.  The
    Playwright calls of a run are numbered from 0 in the order in which
    they are made. *)
Record World := {
  argv : list pystr;                       (* sys.argv *)
  environ : list (pystr * pystr);          (* os.environ *)
  stdin_line : pystr;                      (* the line typed at input() *)
  pw_fails : nat -> option exn;            (* call k raises *)
  pw_console : nat -> list ConsoleMessage; (* console events dispatched
                                              while call k is running *)
  pw_count : nat -> nat;                   (* len of a locator's .all() *)
  pw_html : nat -> pystr;                  (* result of page.content() *)
  tolower_full : N -> list N;              (* Unicode lower-case table *)
  final_sigma : pystr -> pystr -> bool     (* context test for U+03A3 *)
}.

(** Python's [str.lower], after CPython's [do_lower]: every code point
    is replaced by its full lower-case mapping, except capital sigma,
    whose image depends on its context. *)
Definition lower_ucs4 (w : World) (before : pystr) (c : N) (after : pystr)
  : pystr :=
  if (c =? 931)%N
  then [if final_sigma w before after then 962%N else 963%N]
  else tolower_full w c.

Fixpoint lower_from (w : World) (before s : pystr) : pystr :=
  match s with
  | [] => []
  | c :: rest => lower_ucs4 w before c rest ++ lower_from w (before ++ [c]) rest
  end.

Definition lower (w : World) (s : pystr) : pystr := lower_from w [] s.

(** The Unicode table agrees with ASCII on ASCII. *)
Definition ascii_table (w : World) : Prop :=
  forall c, (c < 128)%N -> tolower_full w c = [ascii_lower c].

(** ** Calls and events *)

(** The calls into the Playwright library that the scripts make. *)
Inductive call :=
| Start                                   (* sync_playwright().__enter__ *)
| Launch (headless : bool)                (* p.chromium.launch *)
| NewContext                              (* browser.new_context *)
| BrowserNewPage                          (* browser.new_page *)
| ContextNewPage                          (* context.new_page *)
| On (ev : pystr)                         (* page.on(ev, handler) *)
| Goto (url : pystr)                      (* page.goto *)
| WaitForLoadState (st : pystr)           (* page.wait_for_load_state *)
| Click (selector : pystr)                (* page.locator(s).first.click *)
| All (selector : pystr)                  (* page.locator(s).all *)
| Content                                 (* page.content *)
| Screenshot (path : pystr) (full_page : bool)   (* page.screenshot *)
| Evaluate (js : pystr)                   (* page.evaluate *)
| WaitForTimeout (ms : N)                 (* page.wait_for_timeout *)
| Close.                                  (* browser.close *)

(** What a run does, in order.  A call is recorded when it completes:
    [Done] when it returns, [Failed] when it raises. *)
Inductive event :=
| Done (c : call)
| Failed (c : call) (e : exn)
| Out (line : pystr)                      (* print(line) *)
| Sleep (ms : N)                          (* time.sleep, in milliseconds *)
| Input (prompt : pystr)                  (* input(prompt) *)
| FileOpen (path mode : pystr)            (* open(path, mode) *)
| FileWrite (path data : pystr)           (* f.write(data) *)
| FileClose (path : pystr)                (* end of the with-block of f *)
| Stop.                                   (* sync_playwright().__exit__ *)

(** ** The script monad *)

(** The part of the state that a console handler can reach: the
    terminal and files (through the trace) and the list that
    [get-console.py] closes over. *)
Record Heap := {
  trace : list event;
  console_messages : list ConsoleMessage
}.

Definition listener := ConsoleMessage -> Heap -> Heap.

Record State := {
  heap : Heap;
  pw_calls : nat;                 (* number of Playwright calls so far *)
  listeners : list listener       (* handlers registered by page.on *)
}.

Inductive outcome (A : Type) :=
| Ret (a : A)
| Raise (e : exn).
Arguments Ret {A} a.
Arguments Raise {A} e.

Definition M (A : Type) := World -> State -> outcome A * State.

Definition ret {A} (a : A) : M A := fun _ s => (Ret a, s).

Definition bind {A B} (m : M A) (k : A -> M B) : M B :=
  fun w s =>
    match m w s with
    | (Ret a, s') => k a w s'
    | (Raise e, s') => (Raise e, s')
    end.

Declare Scope script_scope.
Delimit Scope script_scope with script.
Notation "x <- m ;; k" := (bind m (fun x => k))
  (at level 61, m at next level, right associativity) : script_scope.
Notation "m ;; k" := (bind m (fun _ => k))
  (at level 61, right associativity) : script_scope.
Local Open Scope script_scope.

(** Python's [try: body except: handler].  No script uses it. *)
Definition try_except {A} (body : M A) (handler : exn -> M A) : M A :=
  fun w s =>
    match body w s with
    | (Ret a, s') => (Ret a, s')
    | (Raise e, s') => handler e w s'
    end.

(** [sys.argv] and [os.environ].  No script uses them. *)
Definition sys_argv : M (list pystr) := fun w s => (Ret (argv w), s).
Definition os_environ : M (list (pystr * pystr)) :=
  fun w s => (Ret (environ w), s).

(** Recording an event.  [print], [time.sleep], [input] and the file
    operations are taken to return; the failures considered are those
    of the Playwright calls. *)
Definition emit (e : event) (h : Heap) : Heap :=
  {| trace := trace h ++ [e]; console_messages := console_messages h |}.

Definition on_heap (f : Heap -> Heap) : M unit :=
  fun _ s => (Ret tt, {| heap := f (heap s); pw_calls := pw_calls s;
                         listeners := listeners s |}).

Definition event_ (e : event) : M unit := on_heap (emit e).

Definition print (line : pystr) : M unit := event_ (Out line).
Definition sleep (ms : N) : M unit := event_ (Sleep ms).
Definition input (prompt : pystr) : M pystr :=
  fun w s => match event_ (Input prompt) w s with
             | (_, s') => (Ret (stdin_line w), s')
             end.

(** Console events are delivered to every registered handler, message
    by message, in arrival order. *)
Definition deliver (ls : list listener) (h : Heap) (m : ConsoleMessage) : Heap :=
  fold_left (fun h' l => l m h') ls h.

Definition dispatch (ls : list listener) (msgs : list ConsoleMessage)
  (h : Heap) : Heap :=
  fold_left (deliver ls) msgs h.

(** A Playwright call, number [pw_calls s] of the run: the console
    events that arrive while it runs are dispatched to the handlers
    registered so far, then it returns its result or raises.  (The
    synchronous API runs handlers only inside its own calls, never
    during [time.sleep] or [input].) *)
Definition pw {A} (c : call) (result : World -> nat -> A) : M A :=
  fun w s =>
    let k := pw_calls s in
    let h := dispatch (listeners s) (pw_console w k) (heap s) in
    match pw_fails w k with
    | Some e =>
        (Raise e, {| heap := emit (Failed c e) h; pw_calls := S k;
                     listeners := listeners s |})
    | None =>
        (Ret (result w k), {| heap := emit (Done c) h; pw_calls := S k;
                              listeners := listeners s |})
    end.

Definition pw_ (c : call) : M unit := pw c (fun _ _ => tt).

(** [page.on('console', handler)], counted among the Playwright calls. *)
Definition page_on (ev : pystr) (l : listener) : M unit :=
  pw_ (On ev) ;;
  (fun _ s => (Ret tt, {| heap := heap s; pw_calls := pw_calls s;
                          listeners := listeners s ++ [l] |})).

(** [with sync_playwright() as p: body]: the exit runs whether or not
    the body raised, and does not swallow the exception. *)
Definition with_sync_playwright {A} (body : M A) : M A :=
  fun w s =>
    match pw_ Start w s with
    | (Raise e, s') => (Raise e, s')
    | (Ret _, s') =>
        match body w s' with
        | (r, s'') => (r, {| heap := emit Stop (heap s'');
                             pw_calls := pw_calls s'';
                             listeners := listeners s'' |})
        end
    end.

(** [for x in xs: body x]. *)
Fixpoint for_each {A} (xs : list A) (body : A -> M unit) : M unit :=
  match xs with
  | [] => ret tt
  | x :: xs' => body x ;; for_each xs' body
  end.

(** [with open(path, 'w') as f: body]. *)
Definition with_open (path mode : pystr) (body : M unit) : M unit :=
  fun w s =>
    match event_ (FileOpen path mode) w s with
    | (Raise e, s') => (Raise e, s')
    | (Ret _, s') =>
        match body w s' with
        | (r, s'') => (r, {| heap := emit (FileClose path) (heap s'');
                             pw_calls := pw_calls s'';
                             listeners := listeners s'' |})
        end
    end.

Definition init_state : State :=
  {| heap := {| trace := []; console_messages := [] |};
     pw_calls := 0; listeners := [] |}.

(** Running a script from a fresh interpreter. *)
Definition run {A} (m : M A) (w : World) : outcome A * State := m w init_state.
Definition result_of {A} (m : M A) (w : World) : outcome A := fst (run m w).
Definition trace_of {A} (m : M A) (w : World) : list event :=
  trace (heap (snd (run m w))).

(** ** Constants shared by the scripts *)

Definition token_url : pystr := lit "http://localhost:3005/token/token-7".
Definition networkidle : pystr := lit "networkidle".
Definition console : pystr := lit "console".

(** The selector [button:has-text("label")]. *)
Definition button_has_text (label : string) : pystr :=
  lit "button:has-text(" ++ dq ++ lit label ++ dq ++ lit ")".

Definition layout_tag : pystr := lit "CandleChart layout:".

(** ** test-indicators.py *)

Module TestIndicators.

Definition shot_before : pystr := lit "/tmp/01-before-indicators.png".
Definition shot_rsi : pystr := lit "/tmp/02-after-rsi.png".
Definition shot_macd : pystr := lit "/tmp/03-after-macd.png".
Definition shot_all : pystr := lit "/tmp/04-all-indicators.png".

Definition test_indicators : M unit :=
  with_sync_playwright (
    pw_ (Launch false) ;;
    pw_ BrowserNewPage ;;
    print (lit "Navigating to token page...") ;;
    pw_ (Goto token_url) ;;
    pw_ (WaitForLoadState networkidle) ;;
    sleep 2000 ;;
    pw_ (Screenshot shot_before false) ;;
    print (check_mark ++ lit " Took screenshot before enabling indicators") ;;
    print (nl ++ lit "Looking for Indicators button...") ;;
    pw_ (Click (button_has_text "Indicators")) ;;
    print (check_mark ++ lit " Clicked Indicators button") ;;
    sleep 500 ;;
    print (nl ++ lit "Clicking RSI button...") ;;
    pw_ (Click (button_has_text "RSI")) ;;
    print (check_mark ++ lit " Clicked RSI button") ;;
    sleep 1000 ;;
    pw_ (Screenshot shot_rsi false) ;;
    print (check_mark ++ lit " Took screenshot after enabling RSI") ;;
    print (nl ++ lit "Clicking MACD button...") ;;
    pw_ (Click (button_has_text "MACD")) ;;
    print (check_mark ++ lit " Clicked MACD button") ;;
    sleep 1000 ;;
    pw_ (Screenshot shot_macd false) ;;
    print (check_mark ++ lit " Took screenshot after enabling MACD") ;;
    print (nl ++ lit "Clicking Stoch RSI button...") ;;
    pw_ (Click (button_has_text "Stoch RSI")) ;;
    print (check_mark ++ lit " Clicked Stoch RSI button") ;;
    sleep 1000 ;;
    pw_ (Screenshot shot_all false) ;;
    print (check_mark ++ lit " Took screenshot with all indicators enabled") ;;
    print (nl ++ lit "Checking console logs...") ;;
    pw_ (WaitForTimeout 1000) ;;
    pw_ Close ;;
    print (nl ++ lit "=== Test Complete ===") ;;
    print (lit "Screenshots saved:") ;;
    print (lit "  /tmp/01-before-indicators.png") ;;
    print (lit "  /tmp/02-after-rsi.png") ;;
    print (lit "  /tmp/03-after-macd.png") ;;
    print (lit "  /tmp/04-all-indicators.png")
  ).

End TestIndicators.

(** ** debug-indicators.py *)

Module DebugIndicators.

Definition shot_zoom : pystr := lit "/tmp/chart-bottom-zoom.png".

Definition chart_class : pystr := lit "[class*=" ++ dq ++ lit "chart" ++ dq ++ lit "]".

(** The JavaScript handed to [page.evaluate]. *)
Definition probe_js : pystr :=
  nl ++
  lit "        () => {" ++ nl ++
  lit "            console.log('Window height:', window.innerHeight);" ++ nl ++
  lit "            console.log('Document height:', document.body.scrollHeight);" ++ nl ++
  nl ++
  lit "            // Find chart container" ++ nl ++
  lit "            const chartContainer = document.querySelector('" ++ chart_class ++ lit "');" ++ nl ++
  lit "            if (chartContainer) {" ++ nl ++
  lit "                console.log('Chart container height:', chartContainer.offsetHeight);" ++ nl ++
  lit "                console.log('Chart container style:', chartContainer.getAttribute('style'));" ++ nl ++
  lit "            }" ++ nl ++
  nl ++
  lit "            // Find all subchart divs" ++ nl ++
  lit "            const subcharts = document.querySelectorAll('[style*=" ++ dq ++ lit "height" ++ dq
    ++ lit "][style*=" ++ dq ++ lit "border" ++ dq ++ lit "]');" ++ nl ++
  lit "            console.log('Subchart elements found:', subcharts.length);" ++ nl ++
  lit "            subcharts.forEach((sc, i) => {" ++ nl ++
  lit "                console.log(`Subchart ${i}:`, sc.offsetHeight, 'px -', sc.getAttribute('style'));" ++ nl ++
  lit "            });" ++ nl ++
  lit "        }" ++ nl ++
  lit "        ".

Definition found_line : pystr := check_mark ++ lit " 'rsi' found in page HTML".
Definition not_found_line : pystr := ballot_x ++ lit " 'rsi' NOT found in page HTML".

(** Lines 47-50: the search for RSI in the page HTML. *)
Definition report_rsi (html : pystr) : M unit :=
  fun w =>
    (if contains (lit "rsi") (lower w html)
     then print found_line
     else print not_found_line) w.

Definition debug_indicators : M unit :=
  with_sync_playwright (
    pw_ (Launch false) ;;
    pw_ BrowserNewPage ;;
    print (lit "Navigating to token page...") ;;
    pw_ (Goto token_url) ;;
    pw_ (WaitForLoadState networkidle) ;;
    sleep 2000 ;;
    print (lit "Clicking Indicators button...") ;;
    pw_ (Click (button_has_text "Indicators")) ;;
    sleep 500 ;;
    print (lit "Clicking RSI button...") ;;
    pw_ (Click (button_has_text "RSI")) ;;
    sleep 1000 ;;
    print (nl ++ lit "=== Checking DOM for RSI subchart ===") ;;
    rsi_elements <- pw (All (lit "text=RSI")) pw_count ;;
    print (lit "Found " ++ str_of_nat rsi_elements ++ lit " elements with 'RSI' text") ;;
    subcharts <- pw (All chart_class) pw_count ;;
    print (lit "Found " ++ str_of_nat subcharts ++ lit " chart-related elements") ;;
    container <- pw (All (lit ".recharts-wrapper")) pw_count ;;
    print (lit "Found " ++ str_of_nat container ++ lit " recharts-wrapper elements") ;;
    html <- pw Content pw_html ;;
    report_rsi html ;;
    responsive_containers <- pw (All (lit ".recharts-responsive-container")) pw_count ;;
    print (lit "Found " ++ str_of_nat responsive_containers
           ++ lit " ResponsiveContainer elements") ;;
    pw_ (Screenshot shot_zoom false) ;;
    print (nl ++ lit "=== Checking Console ===") ;;
    pw_ (Evaluate probe_js) ;;
    sleep 1000 ;;
    pw_ Close ;;
    print (nl ++ lit "=== Debug Complete ===") ;;
    print (lit "Screenshot saved: /tmp/chart-bottom-zoom.png")
  ).

End DebugIndicators.

(** ** capture-console.py *)

Module CaptureConsole.

Definition log_line (text : pystr) : pystr :=
  nl ++ magnifier ++ lit " CONSOLE LOG: " ++ text.

Definition handle_console (msg : ConsoleMessage) (h : Heap) : Heap :=
  if pystr_eqb (msg_type msg) (lit "log") && contains layout_tag (msg_text msg)
  then emit (Out (log_line (msg_text msg))) h
  else h.

Definition capture_console : M unit :=
  with_sync_playwright (
    pw_ (Launch false) ;;
    pw_ NewContext ;;
    pw_ ContextNewPage ;;
    page_on console handle_console ;;
    print (lit "Navigating to token page...") ;;
    pw_ (Goto token_url) ;;
    pw_ (WaitForLoadState networkidle) ;;
    sleep 2000 ;;
    print (nl ++ lit "Clicking Indicators button...") ;;
    pw_ (Click (button_has_text "Indicators")) ;;
    sleep 500 ;;
    print (lit "Clicking RSI button...") ;;
    pw_ (Click (button_has_text "RSI")) ;;
    sleep 2000 ;;
    print (nl ++ lit "=== Check console output above ===") ;;
    input (lit "Press Enter to close browser...") ;;
    pw_ Close
  ).

End CaptureConsole.

(** ** get-console.py *)

Module GetConsole.

Definition log_path : pystr := lit "/tmp/console-logs.txt".

Definition handle_console (msg : ConsoleMessage) (h : Heap) : Heap :=
  {| trace := trace h;
     console_messages :=
       console_messages h
       ++ [ {| msg_type := msg_type msg; msg_text := msg_text msg |} ] |}.

(** The list [console_messages] as it stands when it is read. *)
Definition get_console_messages : M (list ConsoleMessage) :=
  fun _ s => (Ret (console_messages (heap s)), s).

(** [f"{msg['type']}: {msg['text']}\n"] *)
Definition file_line (msg : ConsoleMessage) : pystr :=
  msg_type msg ++ lit ": " ++ msg_text msg ++ nl.

Definition get_console_logs : M unit :=
  with_sync_playwright (
    pw_ (Launch false) ;;
    pw_ BrowserNewPage ;;
    page_on console handle_console ;;
    print (lit "Navigating...") ;;
    pw_ (Goto token_url) ;;
    pw_ (WaitForLoadState networkidle) ;;
    sleep 2000 ;;
    print (lit "Clicking RSI...") ;;
    pw_ (Click (button_has_text "Indicators")) ;;
    sleep 500 ;;
    pw_ (Click (button_has_text "RSI")) ;;
    sleep 2000 ;;
    print (nl ++ lit "=== CONSOLE LOGS (CandleChart layout) ===") ;;
    msgs <- get_console_messages ;;
    for_each msgs (fun msg =>
      if contains layout_tag (msg_text msg)
      then print (msg_text msg)
      else ret tt) ;;
    with_open log_path (lit "w") (
      msgs <- get_console_messages ;;
      for_each msgs (fun msg =>
        event_ (FileWrite log_path (file_line msg)))) ;;
    print (nl ++ lit "Logs saved to /tmp/console-logs.txt") ;;
    print (lit "Close browser to exit...") ;;
    input (lit "Press Enter...") ;;
    pw_ Close
  ).

End GetConsole.

(** The four scripts of the repository. *)
Inductive script := TestIndicatorsPy | DebugIndicatorsPy | CaptureConsolePy | GetConsolePy.

Definition main (s : script) : M unit :=
  match s with
  | TestIndicatorsPy => TestIndicators.test_indicators
  | DebugIndicatorsPy => DebugIndicators.debug_indicators
  | CaptureConsolePy => CaptureConsole.capture_console
  | GetConsolePy => GetConsole.get_console_logs
  end.

(** ** The control skeleton of a run *)

(** A script's text fixes a sequence of steps: Playwright calls, which
    may raise, and other effects, which do not. *)
Inductive step :=
| SCall (c : call)
| SDo (e : event).

(** Playing a sequence of steps in world [w], the next Playwright call
    being number [k]: the events up to and including the first call
    that raises, and the exception if there is one. *)
Fixpoint play (w : World) (k : nat) (p : list step) : list event * option exn :=
  match p with
  | [] => ([], None)
  | SDo e :: p' => (e :: fst (play w k p'), snd (play w k p'))
  | SCall c :: p' =>
      match pw_fails w k with
      | Some x => ([Failed c x], Some x)
      | None => (Done c :: fst (play w (S k) p'), snd (play w (S k) p'))
      end
  end.

Fixpoint ncalls (p : list step) : nat :=
  match p with
  | [] => 0
  | SCall _ :: p' => S (ncalls p')
  | SDo _ :: p' => ncalls p'
  end.

(** The events of a step that goes through. *)
Definition done (st : step) : event :=
  match st with
  | SCall c => Done c
  | SDo e => e
  end.

(** Terminal output and file contents are data; the rest is control. *)
Definition is_control (e : event) : bool :=
  match e with
  | Out _ | FileWrite _ _ => false
  | _ => true
  end.

Definition skeleton (tr : list event) : list event := filter is_control tr.

(** A handler that only prints. *)
Definition prints_only (l : listener) : Prop :=
  forall m h, exists lines, trace (l m h) = trace h ++ map Out lines.

(** A handler that leaves the trace alone. *)
Definition silent (l : listener) : Prop :=
  forall m h, trace (l m h) = trace h.

Definition quiet (s : State) : Prop := Forall prints_only (listeners s).

(** [follows m p]: from any state with quiet handlers, the control
    events of [m] are those of playing [p]; [m] raises exactly when a
    call of [p] does, and then the raising call is the last event. *)
Definition follows {A} (m : M A) (p : list step) : Prop :=
  forall w s, quiet s ->
    quiet (snd (m w s)) /\
    skeleton (trace (heap (snd (m w s))))
      = skeleton (trace (heap s)) ++ fst (play w (pw_calls s) p) /\
    match fst (m w s) with
    | Ret _ =>
        snd (play w (pw_calls s) p) = None /\
        pw_calls (snd (m w s)) = pw_calls s + ncalls p
    | Raise e =>
        snd (play w (pw_calls s) p) = Some e /\
        exists pre c, trace (heap (snd (m w s))) = pre ++ [Failed c e]
    end.

(** The plan of a whole script: [with sync_playwright()] around a body. *)
Definition play_main (w : World) (body : list step) : list event * option exn :=
  match pw_fails w 0 with
  | Some x => ([Failed Start x], Some x)
  | None => (Done Start :: fst (play w 1 body) ++ [Stop], snd (play w 1 body))
  end.

(** *** Basic facts *)

Lemma skeleton_app (a b : list event) : skeleton (a ++ b) = skeleton a ++ skeleton b.
Proof. apply filter_app. Qed.

Lemma skeleton_outs (lines : list pystr) : skeleton (map Out lines) = [].
Proof. induction lines as [|l ls IH]; simpl; auto. Qed.

Lemma prints_only_skeleton (l : listener) :
  prints_only l -> forall m h, skeleton (trace (l m h)) = skeleton (trace h).
Proof.
  intros Hl m h. destruct (Hl m h) as [lines E].
  rewrite E, skeleton_app, skeleton_outs, app_nil_r. reflexivity.
Qed.

Lemma deliver_prints (ls : list listener) :
  Forall prints_only ls ->
  forall m h, exists lines, trace (deliver ls h m) = trace h ++ map Out lines.
Proof.
  unfold deliver. induction 1 as [|l ls Hl _ IH]; intros m h; simpl.
  - exists []. simpl. now rewrite app_nil_r.
  - destruct (IH m (l m h)) as [l2 E2]. destruct (Hl m h) as [l1 E1].
    exists (l1 ++ l2). rewrite E2, E1, map_app, app_assoc. reflexivity.
Qed.

Lemma dispatch_prints (ls : list listener) :
  Forall prints_only ls ->
  forall msgs h, exists lines, trace (dispatch ls msgs h) = trace h ++ map Out lines.
Proof.
  intros Hls. unfold dispatch. induction msgs as [|m ms IH]; intros h; simpl.
  - exists []. simpl. now rewrite app_nil_r.
  - destruct (IH (deliver ls h m)) as [l2 E2].
    destruct (deliver_prints ls Hls m h) as [l1 E1].
    exists (l1 ++ l2). rewrite E2, E1, map_app, app_assoc. reflexivity.
Qed.

Lemma dispatch_skeleton (ls : list listener) :
  Forall prints_only ls ->
  forall msgs h, skeleton (trace (dispatch ls msgs h)) = skeleton (trace h).
Proof.
  intros Hls msgs h. destruct (dispatch_prints ls Hls msgs h) as [lines E].
  rewrite E, skeleton_app, skeleton_outs, app_nil_r. reflexivity.
Qed.

Lemma dispatch_no_listener (msgs : list ConsoleMessage) (h : Heap) :
  dispatch [] msgs h = h.
Proof. unfold dispatch. induction msgs; simpl; auto. Qed.

Lemma play_app (w : World) (p q : list step) : forall k,
  play w k (p ++ q) =
  match snd (play w k p) with
  | Some x => (fst (play w k p), Some x)
  | None => (fst (play w k p) ++ fst (play w (k + ncalls p) q),
             snd (play w (k + ncalls p) q))
  end.
Proof.
  induction p as [|[c|e] p IH]; intros k; simpl.
  - rewrite Nat.add_0_r. now destruct (play w k q).
  - destruct (pw_fails w k) as [x|]; simpl; [reflexivity|].
    rewrite IH. rewrite <- Nat.add_succ_comm.
    destruct (snd (play w (S k) p)); reflexivity.
  - rewrite IH. destruct (snd (play w k p)); reflexivity.
Qed.

(** *** The primitives follow their steps *)

Lemma follows_ret {A} (a : A) : follows (ret a) [].
Proof.
  intros w s Hq; simpl. rewrite app_nil_r, Nat.add_0_r. auto.
Qed.

Lemma follows_bind {A B} (m : M A) (k : A -> M B) (p q : list step) :
  follows m p -> (forall a, follows (k a) q) -> follows (bind m k) (p ++ q).
Proof.
  intros Hm Hk w s Hq. unfold bind.
  destruct (Hm w s Hq) as (Hq1 & Hsk1 & Hr1).
  destruct (m w s) as [[a|e] s1]; simpl in *.
  - destruct Hr1 as [Hn Hc].
    destruct (Hk a w s1 Hq1) as (Hq2 & Hsk2 & Hr2).
    rewrite play_app, Hn. rewrite Hc in Hsk2, Hr2.
    split; [assumption|]. split.
    + rewrite Hsk2, Hsk1. simpl. now rewrite app_assoc.
    + simpl. destruct (fst (k a w s1)).
      * destruct Hr2 as [-> ->]. split; [reflexivity|].
        clear. induction p as [|[c|e] p IH]; simpl; lia.
      * assumption.
  - destruct Hr1 as [Hx Hlast]. rewrite play_app, Hx. simpl. auto.
Qed.

Lemma follows_pw {A} (c : call) (res : World -> nat -> A) : follows (pw c res) [SCall c].
Proof.
  intros w s Hq. unfold pw.
  destruct (pw_fails w (pw_calls s)) as [x|] eqn:E; simpl; rewrite E; simpl;
    (split; [exact Hq|]);
    rewrite skeleton_app, (dispatch_skeleton _ Hq); simpl.
  - split; [reflexivity|]. split; [reflexivity|]. eauto.
  - split; [reflexivity|]. split; [reflexivity|]. lia.
Qed.

Lemma follows_event (e : event) : is_control e = true -> follows (event_ e) [SDo e].
Proof.
  intros He w s Hq; simpl. rewrite skeleton_app; simpl. rewrite He.
  rewrite Nat.add_0_r. auto.
Qed.

Lemma follows_data (e : event) : is_control e = false -> follows (event_ e) [].
Proof.
  intros He w s Hq; simpl. rewrite skeleton_app; simpl. rewrite He.
  rewrite Nat.add_0_r. auto.
Qed.

Lemma follows_print (line : pystr) : follows (print line) [].
Proof. apply follows_data. reflexivity. Qed.

Lemma follows_sleep (ms : N) : follows (sleep ms) [SDo (Sleep ms)].
Proof. apply follows_event. reflexivity. Qed.

Lemma follows_input (prompt : pystr) : follows (input prompt) [SDo (Input prompt)].
Proof.
  intros w s Hq; simpl. rewrite skeleton_app; simpl. rewrite Nat.add_0_r. auto.
Qed.

Lemma follows_page_on (ev : pystr) (l : listener) :
  prints_only l -> follows (page_on ev l) [SCall (On ev)].
Proof.
  intros Hl. unfold page_on.
  change [SCall (On ev)] with ([SCall (On ev)] ++ []).
  apply follows_bind; [apply follows_pw|].
  intros _ w s Hq; simpl. rewrite app_nil_r, Nat.add_0_r.
  split; [|auto]. unfold quiet in *; simpl. apply Forall_app; auto.
Qed.

Lemma follows_for_each {A} (xs : list A) (body : A -> M unit) :
  (forall x, follows (body x) []) -> follows (for_each xs body) [].
Proof.
  intros Hb. induction xs as [|x xs IH]; simpl.
  - apply follows_ret.
  - change (@nil step) with (@nil step ++ []). apply follows_bind; auto.
Qed.

Lemma follows_with_open (path mode : pystr) (body : M unit) :
  follows body [] ->
  follows (with_open path mode body) [SDo (FileOpen path mode); SDo (FileClose path)].
Proof.
  intros Hb w s Hq. unfold with_open, event_, on_heap. cbv beta iota.
  set (s1 := {| heap := emit (FileOpen path mode) (heap s);
                pw_calls := pw_calls s; listeners := listeners s |}).
  assert (Hq1 : quiet s1) by exact Hq.
  destruct (Hb w s1 Hq1) as (Hq2 & Hsk2 & Hr2).
  destruct (body w s1) as [r s2]. simpl in *.
  split; [exact Hq2|]. split.
  - rewrite !skeleton_app in *. rewrite Hsk2. simpl.
    rewrite app_nil_r, <- app_assoc. reflexivity.
  - destruct r as [a|e].
    + destruct Hr2 as [_ Hc]. split; [reflexivity|]. rewrite Hc. lia.
    + destruct Hr2 as [Hx _]. discriminate Hx.
Qed.

Lemma follows_eq {A} (m : M A) (p q : list step) : follows m p -> p = q -> follows m q.
Proof. intros H <-. exact H. Qed.

Lemma follows_get_console_messages : follows GetConsole.get_console_messages [].
Proof. intros w s Hq; simpl. rewrite app_nil_r, Nat.add_0_r. auto. Qed.

Lemma follows_report_rsi (html : pystr) : follows (DebugIndicators.report_rsi html) [].
Proof.
  intros w s Hq. unfold DebugIndicators.report_rsi.
  destruct (contains (lit "rsi") (lower w html)); apply follows_print; exact Hq.
Qed.

(** *** The handlers of the scripts only print, or are silent *)

Lemma capture_handler_prints : prints_only CaptureConsole.handle_console.
Proof.
  intros m h. unfold CaptureConsole.handle_console.
  destruct (pystr_eqb (msg_type m) (lit "log") && contains layout_tag (msg_text m)).
  - exists [CaptureConsole.log_line (msg_text m)]. reflexivity.
  - exists []. simpl. now rewrite app_nil_r.
Qed.

Lemma get_handler_silent : silent GetConsole.handle_console.
Proof. intros m h. reflexivity. Qed.

Lemma silent_prints_only (l : listener) : silent l -> prints_only l.
Proof. intros Hl m h. exists []. rewrite Hl. simpl. now rewrite app_nil_r. Qed.

(** *** A whole script follows its plan *)

(** What a run of [with sync_playwright(): body] leaves behind, when
    the body follows [p]. *)
Lemma main_follows {A} (body : M A) (p : list step) :
  follows body p ->
  forall w,
    skeleton (trace_of (with_sync_playwright body) w) = fst (play_main w p) /\
    match result_of (with_sync_playwright body) w with
    | Ret _ => snd (play_main w p) = None
    | Raise e =>
        snd (play_main w p) = Some e /\
        exists pre c,
          trace_of (with_sync_playwright body) w
          = pre ++ Failed c e :: match pw_fails w 0 with Some _ => [] | None => [Stop] end
    end.
Proof.
  intros Hb w. unfold trace_of, result_of, run, with_sync_playwright, play_main, pw_, pw.
  simpl. rewrite dispatch_no_listener.
  destruct (pw_fails w 0) as [x|] eqn:E0; simpl.
  - split; [reflexivity|]. split; [reflexivity|]. exists [], Start. reflexivity.
  - match goal with |- context [body w ?s0] => set (s1 := s0) end.
    assert (Hq : quiet s1) by constructor.
    destruct (Hb w s1 Hq) as (_ & Hsk & Hr).
    destruct (body w s1) as [r s2]; simpl in *.
    split.
    + rewrite skeleton_app, Hsk. reflexivity.
    + destruct r as [a|e]; [tauto|].
      destruct Hr as [Hx (pre & c & Ht)]. split; [exact Hx|].
      exists pre, c. rewrite Ht, <- app_assoc. reflexivity.
Qed.

(** ** The plans of the four scripts *)

Definition plan (s : script) : list step :=
  match s with
  | TestIndicatorsPy =>
      [ SCall (Launch false); SCall BrowserNewPage;
        SCall (Goto token_url); SCall (WaitForLoadState networkidle);
        SDo (Sleep 2000);
        SCall (Screenshot TestIndicators.shot_before false);
        SCall (Click (button_has_text "Indicators")); SDo (Sleep 500);
        SCall (Click (button_has_text "RSI")); SDo (Sleep 1000);
        SCall (Screenshot TestIndicators.shot_rsi false);
        SCall (Click (button_has_text "MACD")); SDo (Sleep 1000);
        SCall (Screenshot TestIndicators.shot_macd false);
        SCall (Click (button_has_text "Stoch RSI")); SDo (Sleep 1000);
        SCall (Screenshot TestIndicators.shot_all false);
        SCall (WaitForTimeout 1000); SCall Close ]
  | DebugIndicatorsPy =>
      [ SCall (Launch false); SCall BrowserNewPage;
        SCall (Goto token_url); SCall (WaitForLoadState networkidle);
        SDo (Sleep 2000);
        SCall (Click (button_has_text "Indicators")); SDo (Sleep 500);
        SCall (Click (button_has_text "RSI")); SDo (Sleep 1000);
        SCall (All (lit "text=RSI"));
        SCall (All DebugIndicators.chart_class);
        SCall (All (lit ".recharts-wrapper"));
        SCall Content;
        SCall (All (lit ".recharts-responsive-container"));
        SCall (Screenshot DebugIndicators.shot_zoom false);
        SCall (Evaluate DebugIndicators.probe_js); SDo (Sleep 1000);
        SCall Close ]
  | CaptureConsolePy =>
      [ SCall (Launch false); SCall NewContext; SCall ContextNewPage;
        SCall (On console);
        SCall (Goto token_url); SCall (WaitForLoadState networkidle);
        SDo (Sleep 2000);
        SCall (Click (button_has_text "Indicators")); SDo (Sleep 500);
        SCall (Click (button_has_text "RSI")); SDo (Sleep 2000);
        SDo (Input (lit "Press Enter to close browser..."));
        SCall Close ]
  | GetConsolePy =>
      [ SCall (Launch false); SCall BrowserNewPage;
        SCall (On console);
        SCall (Goto token_url); SCall (WaitForLoadState networkidle);
        SDo (Sleep 2000);
        SCall (Click (button_has_text "Indicators")); SDo (Sleep 500);
        SCall (Click (button_has_text "RSI")); SDo (Sleep 2000);
        SDo (FileOpen GetConsole.log_path (lit "w"));
        SDo (FileClose GetConsole.log_path);
        SDo (Input (lit "Press Enter..."));
        SCall Close ]
  end.

Ltac follow_step :=
  first
    [ apply follows_pw
    | apply follows_print
    | apply follows_sleep
    | apply follows_input
    | apply follows_ret
    | apply follows_report_rsi
    | apply follows_get_console_messages
    | apply follows_page_on;
        first [ exact capture_handler_prints
              | exact (silent_prints_only _ get_handler_silent) ]
    | apply follows_for_each; intros ?;
        first [ apply follows_data; reflexivity
              | match goal with
                | |- follows (if ?b then _ else _) _ => destruct b
                end; follow_step ]
    | eapply follows_with_open;
        change (@nil step) with (@nil step ++ []);
        apply follows_bind; [follow_step | intros ?; follow_step] ].

Ltac follow_seq :=
  lazymatch goal with
  | |- follows (bind _ _) _ =>
      eapply follows_bind; [follow_step | intros ?; follow_seq]
  | |- _ => follow_step
  end.

Ltac follow_script := eapply follows_eq; [follow_seq | reflexivity].

(** Every run of every script follows the plan of the script. *)
Lemma script_follows_plan (s : script) (w : World) :
  skeleton (trace_of (main s) w) = fst (play_main w (plan s)) /\
  match result_of (main s) w with
  | Ret _ => snd (play_main w (plan s)) = None
  | Raise e =>
      snd (play_main w (plan s)) = Some e /\
      exists pre c,
        trace_of (main s) w
        = pre ++ Failed c e :: match pw_fails w 0 with Some _ => [] | None => [Stop] end
  end.
Proof.
  destruct s; simpl main;
    [ unfold TestIndicators.test_indicators
    | unfold DebugIndicators.debug_indicators
    | unfold CaptureConsole.capture_console
    | unfold GetConsole.get_console_logs ];
    apply main_follows; follow_script.
Qed.

(** ** The shapes a run can take *)

(** The steps of [p] before its call number [j] (from 0), and that call. *)
Fixpoint before_call (j : nat) (p : list step) : list step :=
  match p with
  | [] => []
  | SDo e :: p' => SDo e :: before_call j p'
  | SCall c :: p' =>
      match j with
      | 0 => []
      | S j' => SCall c :: before_call j' p'
      end
  end.

Fixpoint nth_call (j : nat) (p : list step) : option call :=
  match p with
  | [] => None
  | SDo _ :: p' => nth_call j p'
  | SCall c :: p' =>
      match j with
      | 0 => Some c
      | S j' => nth_call j' p'
      end
  end.

Lemma nth_call_Some (p : list step) : forall j c, nth_call j p = Some c -> j < ncalls p.
Proof.
  induction p as [|[c'|e] p IH]; simpl; intros j c H; try discriminate.
  - destruct j; [lia|]. apply IH in H. lia.
  - eauto.
Qed.

(** When no call raises, every step goes through. *)
Lemma play_no_failure (w : World) (p : list step) : forall k,
  (forall i, i < ncalls p -> pw_fails w (k + i) = None) ->
  play w k p = (map done p, None).
Proof.
  induction p as [|[c|e] p IH]; simpl; intros k H; auto.
  - assert (E : pw_fails w k = None)
      by (rewrite <- (Nat.add_0_r k); apply H; lia).
    rewrite E. rewrite IH; [reflexivity|]. intros i Hi.
    rewrite Nat.add_succ_comm. apply H. lia.
  - rewrite IH by auto. reflexivity.
Qed.

(** When call [k + j] is the first to raise, the run stops there. *)
Lemma play_first_failure (w : World) (p : list step) : forall k j x,
  pw_fails w (k + j) = Some x ->
  (forall i, i < j -> pw_fails w (k + i) = None) ->
  j < ncalls p ->
  exists c, nth_call j p = Some c /\
            play w k p = (map done (before_call j p) ++ [Failed c x], Some x).
Proof.
  induction p as [|[c|e] p IH]; simpl; intros k j x Hx Hlt Hj; [lia| |].
  - destruct j as [|j].
    + rewrite Nat.add_0_r in Hx. rewrite Hx. eauto.
    + assert (E : pw_fails w k = None)
        by (rewrite <- (Nat.add_0_r k); apply Hlt; lia).
      rewrite E.
      destruct (IH (S k) j x) as (c' & Hc & Hp).
      * now rewrite Nat.add_succ_comm.
      * intros i Hi. rewrite Nat.add_succ_comm. apply Hlt. lia.
      * lia.
      * exists c'. rewrite Hp. auto.
  - destruct (IH k j x Hx Hlt Hj) as (c' & Hc & Hp).
    exists c'. rewrite Hp. auto.
Qed.

(** A play either goes through, or stops at its first raising call. *)
Lemma play_cases (w : World) (p : list step) : forall k,
  (forall i, i < ncalls p -> pw_fails w (k + i) = None) \/
  (exists j x, j < ncalls p /\ pw_fails w (k + j) = Some x /\
               forall i, i < j -> pw_fails w (k + i) = None).
Proof.
  induction p as [|[c|e] p IH]; simpl; intros k.
  - left. intros i Hi. lia.
  - destruct (pw_fails w k) as [x|] eqn:E.
    + right. exists 0, x. rewrite Nat.add_0_r. repeat split; [lia|assumption|].
      intros i Hi. lia.
    + destruct (IH (S k)) as [H | (j & x & Hj & Hx & Hlt)].
      * left. intros [|i] Hi; [now rewrite Nat.add_0_r|].
        rewrite <- Nat.add_succ_comm. apply H. lia.
      * right. exists (S j), x. rewrite <- Nat.add_succ_comm.
        repeat split; [lia|assumption|].
        intros [|i] Hi; [now rewrite Nat.add_0_r|].
        rewrite <- Nat.add_succ_comm. apply Hlt. lia.
  - apply IH.
Qed.

Lemma play_none (w : World) (p : list step) : forall k,
  snd (play w k p) = None -> forall i, i < ncalls p -> pw_fails w (k + i) = None.
Proof.
  intros k H. destruct (play_cases w p k) as [Hn | (j & x & Hj & Hx & Hlt)]; auto.
  destruct (play_first_failure w p k j x Hx Hlt Hj) as (c & _ & Hp).
  rewrite Hp in H. discriminate.
Qed.

(** The control skeleton and result of a run of script [s]: it goes
    through; or starting Playwright raises; or call [j] of the body is
    the first to raise, and only the exit of the with-block follows. *)
Inductive shape (s : script) : list event -> outcome unit -> Prop :=
| shape_through :
    shape s (Done Start :: map done (plan s) ++ [Stop]) (Ret tt)
| shape_no_start (x : exn) :
    shape s [Failed Start x] (Raise x)
| shape_raised (j : nat) (c : call) (x : exn) :
    nth_call j (plan s) = Some c ->
    shape s (Done Start :: map done (before_call j (plan s)) ++ [Failed c x; Stop])
          (Raise x).

Lemma run_shape (s : script) (w : World) :
  shape s (skeleton (trace_of (main s) w)) (result_of (main s) w).
Proof.
  destruct (script_follows_plan s w) as [Hsk Hr]. rewrite Hsk.
  unfold play_main in *.
  destruct (pw_fails w 0) as [x|] eqn:E0; simpl in *.
  - destruct (result_of (main s) w) as [[]|e]; [discriminate|].
    destruct Hr as [Hx _]. injection Hx as <-. constructor.
  - destruct (play_cases w (plan s) 1) as [Hn | (j & x & Hj & Hx & Hlt)].
    + rewrite (play_no_failure w (plan s) 1 Hn) in *. simpl in *.
      destruct (result_of (main s) w) as [[]|e]; [constructor|].
      destruct Hr as [Hx _]. discriminate.
    + destruct (play_first_failure w (plan s) 1 j x Hx Hlt Hj) as (c & Hc & Hp).
      rewrite Hp in *. simpl in *.
      destruct (result_of (main s) w) as [[]|e]; [discriminate|].
      destruct Hr as [He _]. injection He as <-.
      rewrite <- app_assoc. simpl. now constructor.
Qed.

(** A world in which no Playwright call of script [s] raises. *)
Definition calm (s : script) (w : World) : Prop :=
  forall k, k <= ncalls (plan s) -> pw_fails w k = None.

(** The non-failing path: the script's main function returns. *)
Definition returns (s : script) (w : World) : Prop :=
  result_of (main s) w = Ret tt.

Lemma returns_calm (s : script) (w : World) : returns s w -> calm s w.
Proof.
  unfold returns. intros H k Hk.
  destruct (script_follows_plan s w) as [_ Hr]. rewrite H in Hr.
  unfold play_main in Hr.
  destruct (pw_fails w 0) as [x|] eqn:E0; [discriminate|]. simpl in Hr.
  destruct k as [|k]; [assumption|].
  apply (play_none w (plan s) 1 Hr k). lia.
Qed.

Lemma returns_skeleton (s : script) (w : World) :
  returns s w ->
  skeleton (trace_of (main s) w) = Done Start :: map done (plan s) ++ [Stop].
Proof.
  unfold returns. intros H. pose proof (run_shape s w) as Hs.
  rewrite H in Hs. inversion Hs. reflexivity.
Qed.

Lemma calm_returns (s : script) (w : World) : calm s w -> returns s w.
Proof.
  intros H. unfold returns.
  destruct (script_follows_plan s w) as [_ Hr]. unfold play_main in Hr.
  rewrite (H 0) in Hr by lia.
  rewrite (play_no_failure w (plan s) 1) in Hr.
  - simpl in Hr. destruct (result_of (main s) w) as [[]|e]; [reflexivity|].
    destruct Hr as [Hx _]. discriminate.
  - intros i Hi. apply H. simpl. lia.
Qed.

(** ** Worlds used as concrete inputs *)

(** A browser in which every call succeeds, no console message arrives,
    no locator matches and the page is empty; ASCII lower-casing. *)
Definition still_world : World :=
  {| argv := []; environ := []; stdin_line := [];
     pw_fails := fun _ => None;
     pw_console := fun _ => [];
     pw_count := fun _ => 0;
     pw_html := fun _ => [];
     tolower_full := fun c => [ascii_lower c];
     final_sigma := fun _ _ => false |}.

(** The same browser, except that Playwright call number [k] raises [x]. *)
Definition failing_at (k : nat) (x : exn) : World :=
  {| argv := []; environ := []; stdin_line := [];
     pw_fails := fun i => if Nat.eqb i k then Some x else None;
     pw_console := fun _ => [];
     pw_count := fun _ => 0;
     pw_html := fun _ => [];
     tolower_full := fun c => [ascii_lower c];
     final_sigma := fun _ _ => false |}.

Definition timeout_error : exn := lit "TimeoutError".

(** ** Failures propagate *)

Lemma skeleton_control_tail (pre tl : list event) :
  forallb is_control tl = true -> skeleton (pre ++ tl) = skeleton pre ++ tl.
Proof.
  intros H. rewrite skeleton_app. f_equal. unfold skeleton.
  induction tl as [|e tl IH]; simpl in *; [reflexivity|].
  apply andb_prop in H. destruct H as [He Htl]. rewrite He, IH; auto.
Qed.

(** C2.  In every script, when Playwright call number [k] is the first
    to raise, with exception [x], the script ends by raising [x]: the
    calls before it were each made once, the raising call is not made
    again, and after it nothing is printed and nothing is called; only
    the exit of the [with sync_playwright()] block runs. *)
Theorem failure_propagates (s : script) (w : World) (k : nat) (x : exn) :
  pw_fails w k = Some x ->
  (forall i, i < k -> pw_fails w i = None) ->
  k <= ncalls (plan s) ->
  result_of (main s) w = Raise x /\
  exists pre c,
    nth_call k (SCall Start :: plan s) = Some c /\
    trace_of (main s) w
      = pre ++ Failed c x :: match k with 0 => [] | S _ => [Stop] end /\
    skeleton pre = map done (before_call k (SCall Start :: plan s)).
Proof.
  intros Hx Hlt Hk.
  destruct (script_follows_plan s w) as [Hsk Hr]. unfold play_main in *.
  destruct k as [|k].
  - rewrite Hx in *. simpl in *.
    destruct (result_of (main s) w) as [[]|e]; [discriminate|].
    destruct Hr as [He (pre & c & Ht)]. injection He as <-.
    split; [reflexivity|]. rewrite Ht in Hsk.
    rewrite (skeleton_control_tail pre [Failed c x] eq_refl) in Hsk.
    apply (app_inj_tail (skeleton pre) []) in Hsk. destruct Hsk as [Hp Hc].
    injection Hc as ->. exists pre, Start. auto.
  - rewrite (Hlt 0) in * by lia.
    destruct (play_first_failure w (plan s) 1 k x) as (c' & Hc' & Hp);
      [exact Hx | intros i Hi; apply Hlt; simpl; lia | lia |].
    rewrite Hp in *. simpl in *.
    destruct (result_of (main s) w) as [[]|e]; [discriminate|].
    destruct Hr as [He (pre & c & Ht)]. injection He as <-.
    split; [reflexivity|]. rewrite Ht in Hsk.
    rewrite (skeleton_control_tail pre [Failed c x; Stop] eq_refl) in Hsk.
    change (skeleton pre ++ [Failed c x; Stop])
      with (skeleton pre ++ [Failed c x] ++ [Stop]) in Hsk.
    rewrite app_assoc in Hsk.
    change (Done Start :: (map done (before_call k (plan s)) ++ [Failed c' x]) ++ [Stop])
      with ((Done Start :: map done (before_call k (plan s)) ++ [Failed c' x]) ++ [Stop])
      in Hsk.
    apply app_inj_tail in Hsk. destruct Hsk as [Hsk _].
    change (Done Start :: map done (before_call k (plan s)) ++ [Failed c' x])
      with ((Done Start :: map done (before_call k (plan s))) ++ [Failed c' x]) in Hsk.
    apply app_inj_tail in Hsk. destruct Hsk as [Hpre Hc].
    injection Hc as ->. exists pre, c'. auto.
Qed.

(** The navigation of [test-indicators.py] timing out. *)
Lemma failure_propagates_witness :
  result_of (main TestIndicatorsPy) (failing_at 3 timeout_error) = Raise timeout_error /\
  exists pre c,
    nth_call 3 (SCall Start :: plan TestIndicatorsPy) = Some c /\
    trace_of (main TestIndicatorsPy) (failing_at 3 timeout_error)
      = pre ++ Failed c timeout_error :: [Stop] /\
    skeleton pre = map done (before_call 3 (SCall Start :: plan TestIndicatorsPy)).
Proof.
  apply (failure_propagates TestIndicatorsPy (failing_at 3 timeout_error) 3 timeout_error).
  - reflexivity.
  - intros i Hi. simpl. destruct i as [|[|[|i]]]; try reflexivity. lia.
  - vm_compute. lia.
Defined.

(** ** Enumerating the runs of a script *)

(** A property of control skeletons holds of every run once it holds of
    every shape. *)
Lemma every_run (s : script) (P : list event -> outcome unit -> Prop) :
  (forall tr r, shape s tr r -> P tr r) ->
  forall w, P (skeleton (trace_of (main s) w)) (result_of (main s) w).
Proof. intros H w. apply H, run_shape. Qed.

Lemma prefix_by_skipn {A} (l t : list A) :
  l ++ skipn (List.length l) t = t -> exists rest, l ++ rest = t.
Proof. eauto. Qed.

(** Go through the calls of a concrete plan: [H : nth_call j p = Some c]. *)
Ltac each_call H j :=
  repeat (destruct j as [|j]; [vm_compute in H; injection H as <- |]);
  try (exfalso; vm_compute in H; discriminate H).

(** ** Waiting *)

Definition call_of (e : event) : option call :=
  match e with
  | Done c | Failed c _ => Some c
  | _ => None
  end.

Definition is_navigation (c : call) : bool :=
  match c with Goto _ => true | _ => false end.

Definition is_click (c : call) : bool :=
  match c with Click _ => true | _ => false end.

(** A UI action: a navigation or a click. *)
Definition is_ui_action (c : call) : bool := is_navigation c || is_click c.

(** A capture: a screenshot or a read of the page. *)
Definition is_capture (c : call) : bool :=
  match c with
  | Screenshot _ _ | All _ | Content | Evaluate _ => true
  | _ => false
  end.

(** The two ways in which the scripts wait: for a fixed duration
    ([time.sleep], [page.wait_for_timeout]), or until the page signals a
    load state ([page.wait_for_load_state]). *)
Inductive wait :=
| FixedPause (ms : N)
| UntilLoadState (st : pystr).

Definition wait_of (e : event) : option wait :=
  match e with
  | Sleep ms => Some (FixedPause ms)
  | Done (WaitForTimeout ms) | Failed (WaitForTimeout ms) _ => Some (FixedPause ms)
  | Done (WaitForLoadState st) | Failed (WaitForLoadState st) _ =>
      Some (UntilLoadState st)
  | _ => None
  end.

Definition is_fixed_pause (wt : wait) : bool :=
  match wt with FixedPause _ => true | UntilLoadState _ => false end.

(** The waits performed between a call satisfying [trigger] and the
    next capture or UI action.  [armed] tells whether the last capture
    or UI action seen so far was a trigger. *)
Fixpoint waits_after (trigger : call -> bool) (armed : bool) (tr : list event)
  : list wait :=
  match tr with
  | [] => []
  | e :: tr' =>
      match wait_of e with
      | Some wt => (if armed then [wt] else []) ++ waits_after trigger armed tr'
      | None =>
          match call_of e with
          | Some c =>
              if trigger c then waits_after trigger true tr'
              else if is_ui_action c || is_capture c
                   then waits_after trigger false tr'
                   else waits_after trigger armed tr'
          | None => waits_after trigger armed tr'
          end
      end
  end.

(** Synchronisation by fixed pauses only, as the specification has it. *)
Definition pauses_only (tr : list event) : Prop :=
  forall wt, In wt (waits_after is_ui_action false tr) -> exists ms, wt = FixedPause ms.

Lemma waits_after_skeleton (trigger : call -> bool) (tr : list event) :
  forall armed, waits_after trigger armed (skeleton tr) = waits_after trigger armed tr.
Proof.
  induction tr as [|e tr IH]; intros armed; [reflexivity|].
  destruct e; simpl; try rewrite !IH; try reflexivity;
    repeat match goal with
           | |- context [match ?c with _ => _ end] => destruct c; simpl; rewrite ?IH
           end; reflexivity.
Qed.

Lemma all_fixed (l : list wait) :
  forallb is_fixed_pause l = true -> forall wt, In wt l -> exists ms, wt = FixedPause ms.
Proof.
  intros H wt Hin. rewrite forallb_forall in H. specialize (H wt Hin).
  destruct wt; [eauto | discriminate].
Qed.

(** C1, as stated, fails: in [test-indicators.py], with every call
    succeeding, the wait that follows the navigation is a wait for the
    'networkidle' load state, not a fixed pause. *)
Lemma pauses_only_fails :
  In (UntilLoadState (lit "networkidle"))
     (waits_after is_ui_action false (trace_of (main TestIndicatorsPy) still_world)) /\
  ~ pauses_only (trace_of (main TestIndicatorsPy) still_world).
Proof.
  assert (H : In (UntilLoadState (lit "networkidle"))
                 (waits_after is_ui_action false
                    (trace_of (main TestIndicatorsPy) still_world)))
    by (vm_compute; auto).
  split; [exact H|]. intros Hp. destruct (Hp _ H) as [ms Hms]. discriminate Hms.
Qed.

(** C1, amended.  In every run of every script, each wait between a
    click and the next capture or UI action is a fixed pause; the waits
    between the navigation and the next capture or click are a wait for
    the 'networkidle' load state followed by a fixed pause of two
    seconds (both of them when the run returns, an initial part of them
    when it is cut short). *)
Theorem waits_after_clicks_are_pauses (s : script) (w : World) :
  (forall wt, In wt (waits_after is_click false (trace_of (main s) w)) ->
              exists ms, wt = FixedPause ms) /\
  (exists rest,
      waits_after is_navigation false (trace_of (main s) w) ++ rest
      = [UntilLoadState (lit "networkidle"); FixedPause 2000]) /\
  (returns s w ->
   waits_after is_navigation false (trace_of (main s) w)
   = [UntilLoadState (lit "networkidle"); FixedPause 2000]).
Proof.
  unfold returns.
  rewrite <- (waits_after_skeleton is_click), <- (waits_after_skeleton is_navigation).
  revert w. apply (every_run s (fun tr r =>
    (forall wt, In wt (waits_after is_click false tr) -> exists ms, wt = FixedPause ms) /\
    (exists rest, waits_after is_navigation false tr ++ rest
                  = [UntilLoadState (lit "networkidle"); FixedPause 2000]) /\
    (r = Ret tt -> waits_after is_navigation false tr
                   = [UntilLoadState (lit "networkidle"); FixedPause 2000]))).
  intros tr r Hsh.
  destruct s; destruct Hsh as [|x|j c x Hc];
    try each_call Hc j;
    (split; [apply all_fixed; vm_compute; reflexivity|]);
    (split; [apply prefix_by_skipn; vm_compute; reflexivity|]);
    intros Hr; try discriminate Hr; vm_compute; reflexivity.
Qed.

Lemma waits_after_clicks_are_pauses_witness :
  returns DebugIndicatorsPy still_world /\
  waits_after is_navigation false (trace_of (main DebugIndicatorsPy) still_world)
  = [UntilLoadState (lit "networkidle"); FixedPause 2000].
Proof.
  split; [reflexivity|].
  apply (waits_after_clicks_are_pauses DebugIndicatorsPy still_world). reflexivity.
Defined.

(** ** Observations on traces *)

(** The events of a trace selected and mapped by [f], in order. *)
Fixpoint pick {B} (f : event -> option B) (tr : list event) : list B :=
  match tr with
  | [] => []
  | e :: tr' =>
      match f e with
      | Some b => b :: pick f tr'
      | None => pick f tr'
      end
  end.

(** [f] looks at control events only. *)
Definition on_control {B} (f : event -> option B) : Prop :=
  forall e, is_control e = false -> f e = None.

Lemma pick_skeleton {B} (f : event -> option B) :
  on_control f -> forall tr, pick f (skeleton tr) = pick f tr.
Proof.
  intros Hf. induction tr as [|e tr IH]; simpl; [reflexivity|].
  destruct (is_control e) eqn:E; simpl.
  - now rewrite IH.
  - now rewrite (Hf e E).
Qed.

Lemma pick_app {B} (f : event -> option B) (a b : list event) :
  pick f (a ++ b) = pick f a ++ pick f b.
Proof.
  induction a as [|e a IH]; simpl; [reflexivity|].
  destruct (f e); simpl; now rewrite IH.
Qed.

Ltac on_control_tac := intros [] H; try reflexivity; discriminate H.

(** *** Files *)

Inductive artifact := ImageFile | TextFile.

(** An event that leaves a file behind: a screenshot that returned, or
    a file opened for writing. *)
Definition written (e : event) : option (pystr * artifact) :=
  match e with
  | Done (Screenshot path _) => Some (path, ImageFile)
  | FileOpen path mode =>
      if pystr_eqb mode (lit "w") then Some (path, TextFile) else None
  | _ => None
  end.

Definition files_written (tr : list event) : list (pystr * artifact) :=
  pick written tr.

Lemma written_on_control : on_control written.
Proof. on_control_tac. Qed.

(** The artifacts named in the specification. *)
Definition artifacts (s : script) : list (pystr * artifact) :=
  match s with
  | TestIndicatorsPy =>
      [ (lit "/tmp/01-before-indicators.png", ImageFile);
        (lit "/tmp/02-after-rsi.png", ImageFile);
        (lit "/tmp/03-after-macd.png", ImageFile);
        (lit "/tmp/04-all-indicators.png", ImageFile) ]
  | GetConsolePy => [ (lit "/tmp/console-logs.txt", TextFile) ]
  | DebugIndicatorsPy => [ (lit "/tmp/chart-bottom-zoom.png", ImageFile) ]
  | CaptureConsolePy => []
  end.

(** *** Browsers and pages *)

Definition launch_of (e : event) : option bool :=
  match e with Done (Launch headless) => Some headless | _ => None end.

Definition new_page_of (e : event) : option call :=
  match e with
  | Done BrowserNewPage => Some BrowserNewPage
  | Done ContextNewPage => Some ContextNewPage
  | _ => None
  end.

Definition launches (tr : list event) : nat := List.length (pick launch_of tr).
Definition pages_created (tr : list event) : nat := List.length (pick new_page_of tr).

(** The number of open pages after an event: a new page opens one;
    closing the browser, or stopping Playwright, closes them all. *)
Definition page_step (n : nat) (e : event) : nat :=
  match e with
  | Done BrowserNewPage | Done ContextNewPage => S n
  | Done Close | Stop => 0
  | _ => n
  end.

Definition open_pages_from (n : nat) (tr : list event) : nat :=
  fold_left page_step tr n.

Definition open_pages (tr : list event) : nat := open_pages_from 0 tr.

(** The largest number of pages open at any point of a trace. *)
Fixpoint peak_pages (n : nat) (tr : list event) : nat :=
  match tr with
  | [] => n
  | e :: tr' => Nat.max n (peak_pages (page_step n e) tr')
  end.

Lemma launch_on_control : on_control launch_of.
Proof. on_control_tac. Qed.

Lemma new_page_on_control : on_control new_page_of.
Proof. on_control_tac. Qed.

Lemma page_step_data (n : nat) (e : event) : is_control e = false -> page_step n e = n.
Proof. destruct e; simpl; intros H; try reflexivity; discriminate H. Qed.

Lemma peak_pages_skeleton (tr : list event) :
  forall n, peak_pages n (skeleton tr) = peak_pages n tr.
Proof.
  induction tr as [|e tr IH]; intros n; simpl; [reflexivity|].
  destruct (is_control e) eqn:E; simpl.
  - now rewrite IH.
  - rewrite (page_step_data n e E), IH.
    assert (n <= peak_pages n tr) by (destruct tr; simpl; lia). lia.
Qed.

Lemma open_pages_skeleton (tr : list event) :
  forall n, open_pages_from n (skeleton tr) = open_pages_from n tr.
Proof.
  unfold open_pages_from.
  induction tr as [|e tr IH]; intros n; simpl; [reflexivity|].
  destruct (is_control e) eqn:E; simpl.
  - now rewrite IH.
  - now rewrite (page_step_data n e E), IH.
Qed.

Lemma peak_pages_bounds (pre post : list event) :
  forall n, open_pages_from n pre <= peak_pages n (pre ++ post).
Proof.
  unfold open_pages_from.
  induction pre as [|e pre IH]; intros n; simpl.
  - destruct post; simpl; lia.
  - specialize (IH (page_step n e)). lia.
Qed.

(** *** The last browser operation *)

(** The operations on the browser, its context and its page: every
    Playwright call except starting the driver. *)
Definition browser_op (e : event) : option event :=
  match e with
  | Done Start | Failed Start _ => None
  | Done _ | Failed _ _ => Some e
  | _ => None
  end.

Definition browser_ops (tr : list event) : list event := pick browser_op tr.

Lemma browser_op_on_control : on_control browser_op.
Proof. on_control_tac. Qed.

Lemma in_skeleton (e : event) (tr : list event) : In e (skeleton tr) -> In e tr.
Proof. unfold skeleton. rewrite filter_In. tauto. Qed.

Lemma in_control (e : event) (tr : list event) :
  is_control e = true -> In e tr -> In e (skeleton tr).
Proof. unfold skeleton. rewrite filter_In. tauto. Qed.

(** ** Output files *)

(** C3, as stated, fails: when the 'Indicators' button is missing and
    the click on it raises, [test-indicators.py] has written the first
    screenshot only. *)
Lemma artifacts_not_every_run :
  files_written (trace_of (main TestIndicatorsPy) (failing_at 6 timeout_error))
  = [ (lit "/tmp/01-before-indicators.png", ImageFile) ] /\
  files_written (trace_of (main TestIndicatorsPy) (failing_at 6 timeout_error))
  <> artifacts TestIndicatorsPy.
Proof. split; [vm_compute; reflexivity | vm_compute; discriminate]. Qed.

(** C3, amended.  The files a script writes are image files and a text
    file at fixed paths: a run that returns writes exactly the files of
    [artifacts] (the four screenshots for [test-indicators.py],
    [/tmp/console-logs.txt] for [get-console.py],
    [/tmp/chart-bottom-zoom.png] for [debug-indicators.py], none for
    [capture-console.py]), in that order; a run cut short by a failure
    writes an initial part of them and nothing else. *)
Theorem artifacts_at_fixed_paths (s : script) (w : World) :
  (returns s w -> files_written (trace_of (main s) w) = artifacts s) /\
  (exists rest, files_written (trace_of (main s) w) ++ rest = artifacts s).
Proof.
  unfold returns, files_written.
  rewrite <- (pick_skeleton written written_on_control).
  revert w. apply (every_run s (fun tr r =>
    (r = Ret tt -> pick written tr = artifacts s) /\
    (exists rest, pick written tr ++ rest = artifacts s))).
  intros tr r Hsh.
  destruct s; destruct Hsh as [|x|j c x Hc];
    try each_call Hc j;
    (split; [intros Hr; try discriminate Hr; vm_compute; reflexivity
            | apply prefix_by_skipn; vm_compute; reflexivity]).
Qed.

Lemma artifacts_at_fixed_paths_witness :
  returns GetConsolePy still_world /\
  files_written (trace_of (main GetConsolePy) still_world) = artifacts GetConsolePy.
Proof.
  split; [reflexivity|].
  apply (artifacts_at_fixed_paths GetConsolePy still_world). reflexivity.
Defined.

(** ** The order of steps in test-indicators.py *)

(** The navigations, clicks and screenshots of a trace that returned. *)
Definition ui_step (e : event) : option call :=
  match e with
  | Done (Goto url) => Some (Goto url)
  | Done (Click sel) => Some (Click sel)
  | Done (Screenshot path full) => Some (Screenshot path full)
  | _ => None
  end.

Definition ui_steps (tr : list event) : list call := pick ui_step tr.

Lemma ui_step_on_control : on_control ui_step.
Proof. on_control_tac. Qed.

Definition test_indicators_steps : list call :=
  [ Goto (lit "http://localhost:3005/token/token-7");
    Screenshot (lit "/tmp/01-before-indicators.png") false;
    Click (button_has_text "Indicators");
    Click (button_has_text "RSI");
    Screenshot (lit "/tmp/02-after-rsi.png") false;
    Click (button_has_text "MACD");
    Screenshot (lit "/tmp/03-after-macd.png") false;
    Click (button_has_text "Stoch RSI");
    Screenshot (lit "/tmp/04-all-indicators.png") false ].



(** ** Closing the browser *)

(** C6.  When a script returns, [browser.close()] is its last browser
    operation.  In [capture-console.py] and [get-console.py] the
    [input()] prompt is the step immediately before it (only what a
    console handler prints while [browser.close()] runs can come
    between); in [test-indicators.py] and [debug-indicators.py] no
    [input()] is performed at all. *)
Theorem close_is_last (s : script) (w : World) :
  returns s w ->
  last (browser_ops (trace_of (main s) w)) Stop = Done Close /\
  match s with
  | CaptureConsolePy =>
      exists pre post,
        skeleton (trace_of (main s) w)
        = pre ++ [Input (lit "Press Enter to close browser..."); Done Close] ++ post
  | GetConsolePy =>
      exists pre post,
        skeleton (trace_of (main s) w)
        = pre ++ [Input (lit "Press Enter..."); Done Close] ++ post
  | TestIndicatorsPy | DebugIndicatorsPy =>
      forall prompt, ~ In (Input prompt) (trace_of (main s) w)
  end.
Proof.
  intros Hr. pose proof (returns_skeleton s w Hr) as Hsk.
  unfold browser_ops. rewrite <- (pick_skeleton browser_op browser_op_on_control), Hsk.
  split; [destruct s; vm_compute; reflexivity|].
  destruct s.
  - intros prompt Hin. apply (in_control (Input prompt) _ eq_refl) in Hin. rewrite Hsk in Hin.
    vm_compute in Hin.
    repeat (destruct Hin as [Hin|Hin]; [discriminate Hin|]). exact Hin.
  - intros prompt Hin. apply (in_control (Input prompt) _ eq_refl) in Hin. rewrite Hsk in Hin.
    vm_compute in Hin.
    repeat (destruct Hin as [Hin|Hin]; [discriminate Hin|]). exact Hin.
  - exists (firstn 12 (Done Start :: map done (plan CaptureConsolePy))), [Stop].
    vm_compute. reflexivity.
  - exists (firstn 13 (Done Start :: map done (plan GetConsolePy))), [Stop].
    vm_compute. reflexivity.
Qed.

Lemma close_is_last_witness :
  last (browser_ops (trace_of (main CaptureConsolePy) still_world)) Stop = Done Close /\
  exists pre post,
    skeleton (trace_of (main CaptureConsolePy) still_world)
    = pre ++ [Input (lit "Press Enter to close browser..."); Done Close] ++ post.
Proof. apply (close_is_last CaptureConsolePy still_world). reflexivity. Defined.

(** ** One browser, one page *)

(** C8, as stated, fails: when launching the browser raises, a run of
    [capture-console.py] has launched no browser and created no page. *)
Lemma no_browser_when_launch_fails :
  launches (trace_of (main CaptureConsolePy) (failing_at 1 (lit "Error"))) = 0 /\
  pages_created (trace_of (main CaptureConsolePy) (failing_at 1 (lit "Error"))) = 0 /\
  ~ (launches (trace_of (main CaptureConsolePy) (failing_at 1 (lit "Error"))) = 1 /\
     pages_created (trace_of (main CaptureConsolePy) (failing_at 1 (lit "Error"))) = 1).
Proof.
  split; [vm_compute; reflexivity|]. split; [vm_compute; reflexivity|].
  intros [H _]. vm_compute in H. discriminate H.
Qed.

(** C8, amended.  Every run of every script launches at most one browser
    and creates at most one page, and at no point are two pages open.
    A run that returns has launched exactly one browser, created exactly
    one page, and closed the browser: no page is open when it returns. *)
Theorem one_browser_one_page (s : script) (w : World) :
  launches (trace_of (main s) w) <= 1 /\
  pages_created (trace_of (main s) w) <= 1 /\
  (forall pre post, trace_of (main s) w = pre ++ post -> open_pages pre <= 1) /\
  (returns s w ->
   launches (trace_of (main s) w) = 1 /\
   pages_created (trace_of (main s) w) = 1 /\
   In (Done Close) (trace_of (main s) w) /\
   open_pages (trace_of (main s) w) = 0).
Proof.
  assert (H : launches (trace_of (main s) w) <= 1 /\
              pages_created (trace_of (main s) w) <= 1 /\
              peak_pages 0 (trace_of (main s) w) <= 1 /\
              (returns s w ->
               launches (trace_of (main s) w) = 1 /\
               pages_created (trace_of (main s) w) = 1 /\
               In (Done Close) (skeleton (trace_of (main s) w)) /\
               open_pages (trace_of (main s) w) = 0)).
  { unfold returns, launches, pages_created, open_pages.
    rewrite <- (pick_skeleton launch_of launch_on_control),
            <- (pick_skeleton new_page_of new_page_on_control),
            <- peak_pages_skeleton, <- open_pages_skeleton.
    revert w. apply (every_run s (fun tr r =>
      List.length (pick launch_of tr) <= 1 /\
      List.length (pick new_page_of tr) <= 1 /\
      peak_pages 0 tr <= 1 /\
      (r = Ret tt ->
       List.length (pick launch_of tr) = 1 /\
       List.length (pick new_page_of tr) = 1 /\
       In (Done Close) tr /\
       open_pages_from 0 tr = 0))).
    intros tr r Hsh.
    destruct s; destruct Hsh as [|x|j c x Hc];
      try each_call Hc j;
      (split; [vm_compute; lia|]); (split; [vm_compute; lia|]);
      (split; [vm_compute; lia|]);
      intros Hr; try discriminate Hr;
      (split; [vm_compute; reflexivity|]); (split; [vm_compute; reflexivity|]);
      (split; [|vm_compute; reflexivity]);
      vm_compute; tauto. }
  destruct H as (Hl & Hp & Hpk & Hret).
  split; [exact Hl|]. split; [exact Hp|]. split.
  - intros pre post E. unfold open_pages.
    pose proof (peak_pages_bounds pre post 0) as Hb. rewrite <- E in Hb. lia.
  - intros Hr. destruct (Hret Hr) as (H1 & H2 & H3 & H4).
    repeat split; auto. now apply in_skeleton.
Qed.

Lemma one_browser_one_page_witness :
  returns DebugIndicatorsPy still_world /\
  launches (trace_of (main DebugIndicatorsPy) still_world) = 1 /\
  pages_created (trace_of (main DebugIndicatorsPy) still_world) = 1 /\
  In (Done Close) (trace_of (main DebugIndicatorsPy) still_world) /\
  open_pages (trace_of (main DebugIndicatorsPy) still_world) = 0.
Proof.
  split; [reflexivity|].
  apply (one_browser_one_page DebugIndicatorsPy still_world). reflexivity.
Defined.

(** ** Command-line arguments and environment variables *)

(** The world [w] with other command-line arguments and environment. *)
Definition with_process_inputs (w : World) (args : list pystr)
  (env : list (pystr * pystr)) : World :=
  {| argv := args; environ := env; stdin_line := stdin_line w;
     pw_fails := pw_fails w; pw_console := pw_console w;
     pw_count := pw_count w; pw_html := pw_html w;
     tolower_full := tolower_full w; final_sigma := final_sigma w |}.


(** A computation that does not look at the arguments or environment. *)
Definition blind {A} (m : M A) : Prop :=
  forall w args env s, m (with_process_inputs w args env) s = m w s.
















(** Not every computation is blind: one that returns [sys.argv] is not. *)
Lemma sys_argv_not_blind : ~ blind sys_argv.
Proof.
  intros H. specialize (H still_world [lit "--headless"] [] init_state).
  discriminate H.
Qed.



(** ** Substrings *)

(** [needle] occurs in [hay]. *)
Definition occurs_in (needle hay : pystr) : Prop :=
  exists a b, hay = a ++ needle ++ b.

Lemma starts_with_spec (p : pystr) :
  forall s, starts_with p s = true <-> exists b, s = p ++ b.
Proof.
  induction p as [|a p IH]; intros s; simpl.
  - split; eauto.
  - destruct s as [|c s].
    + split; [discriminate | intros [b Hb]; discriminate Hb].
    + rewrite andb_true_iff, N.eqb_eq, IH. split.
      * intros [-> [b ->]]. eauto.
      * intros [b Hb]. injection Hb as -> ->. eauto.
Qed.

Lemma contains_spec (needle : pystr) :
  forall hay, contains needle hay = true <-> occurs_in needle hay.
Proof.
  unfold occurs_in. induction hay as [|c hay IH].
  - simpl. rewrite orb_false_r, starts_with_spec. split.
    + intros [b Hb]. exists [], b. exact Hb.
    + intros (a & b & H). destruct a as [|x a]; [eauto | discriminate H].
  - cbn [contains]. rewrite orb_true_iff, starts_with_spec, IH. split.
    + intros [[b Hb] | (a & b & H)].
      * exists [], b. exact Hb.
      * exists (c :: a), b. simpl. now rewrite H.
    + intros (a & b & H). destruct a as [|x a].
      * left. eauto.
      * right. injection H as -> H. eauto.
Qed.

Lemma pystr_eqb_spec (a b : pystr) : pystr_eqb a b = true <-> a = b.
Proof.
  unfold pystr_eqb. destruct (list_eq_dec N.eq_dec a b); split; auto; discriminate.
Qed.

(** ** The console handler of capture-console.py *)





(** Over a batch of console events, the handler prints the layout logs,
    in arrival order, and stores nothing. *)
Lemma capture_console_dispatch (msgs : list ConsoleMessage) :
  forall h,
    dispatch [CaptureConsole.handle_console] msgs h
    = {| trace := trace h ++
           map (fun m => Out (CaptureConsole.log_line (msg_text m)))
               (filter (fun m => pystr_eqb (msg_type m) (lit "log")
                                 && contains layout_tag (msg_text m)) msgs);
         console_messages := console_messages h |}.
Proof.
  unfold dispatch. induction msgs as [|m msgs IH]; intros h; simpl.
  - rewrite app_nil_r. now destruct h.
  - rewrite IH. unfold CaptureConsole.handle_console.
    destruct (pystr_eqb (msg_type m) (lit "log") && contains layout_tag (msg_text m));
      simpl; [rewrite <- app_assoc|]; reflexivity.
Qed.

(** ** Running a script step by step *)

Lemma get_console_dispatch (msgs : list ConsoleMessage) :
  forall h, dispatch [GetConsole.handle_console] msgs h
            = {| trace := trace h; console_messages := console_messages h ++ msgs |}.
Proof.
  unfold dispatch. induction msgs as [|m msgs IH]; intros h; simpl.
  - rewrite app_nil_r. now destruct h.
  - rewrite IH. simpl. rewrite <- app_assoc. now destruct m.
Qed.

Lemma for_each_print_if {A} (f : A -> bool) (g : A -> pystr) (xs : list A) (w : World) :
  forall s,
    for_each xs (fun x => if f x then print (g x) else ret tt) w s
    = (Ret tt,
       {| heap := {| trace := trace (heap s) ++ map (fun x => Out (g x)) (filter f xs);
                     console_messages := console_messages (heap s) |};
          pw_calls := pw_calls s; listeners := listeners s |}).
Proof.
  induction xs as [|x xs IH]; intros s; simpl.
  - rewrite app_nil_r. now destruct s as [[] ].
  - unfold bind. destruct (f x); simpl; rewrite IH; simpl;
      [rewrite <- app_assoc|]; reflexivity.
Qed.

Lemma for_each_event {A} (g : A -> event) (xs : list A) (w : World) :
  forall s,
    for_each xs (fun x => event_ (g x)) w s
    = (Ret tt,
       {| heap := {| trace := trace (heap s) ++ map g xs;
                     console_messages := console_messages (heap s) |};
          pw_calls := pw_calls s; listeners := listeners s |}).
Proof.
  induction xs as [|x xs IH]; intros s; simpl.
  - rewrite app_nil_r. now destruct s as [[] ].
  - unfold bind. simpl. rewrite IH. simpl. rewrite <- app_assoc. reflexivity.
Qed.

Ltac unfold_script :=
  unfold run, main,
    TestIndicators.test_indicators, DebugIndicators.debug_indicators,
    CaptureConsole.capture_console, GetConsole.get_console_logs,
    with_sync_playwright, with_open, page_on, pw_, pw, bind, init_state.

Ltac step_state :=
  cbn [print sleep input event_ on_heap GetConsole.get_console_messages
       heap pw_calls listeners trace console_messages emit app fst snd].

(** Run a script whose calls return: [Hc k] proves [pw_fails w k = None]. *)
Ltac run_calm w Hc :=
  unfold_script; step_state;
  repeat (match goal with
          | |- context [pw_fails w ?k] => rewrite (Hc k) by (simpl; lia)
          end;
          step_state;
          rewrite ?dispatch_no_listener, ?get_console_dispatch,
                  ?capture_console_dispatch, ?for_each_print_if, ?for_each_event;
          step_state).

(** ** The console log of get-console.py *)

Definition out_of (e : event) : option pystr :=
  match e with Out line => Some line | _ => None end.

(** The lines printed on the terminal. *)
Definition stdout (tr : list event) : list pystr := pick out_of tr.

Definition write_to (path : pystr) (e : event) : option pystr :=
  match e with
  | FileWrite p data => if pystr_eqb p path then Some data else None
  | _ => None
  end.

(** The pieces written to the file at [path], and the file's content. *)
Definition writes_to (path : pystr) (tr : list event) : list pystr :=
  pick (write_to path) tr.


Lemma pick_map_some {A B} (g : A -> event) (f : event -> option B) (h : A -> B)
  (xs : list A) :
  (forall x, f (g x) = Some (h x)) -> pick f (map g xs) = map h xs.
Proof.
  intros H. induction xs as [|x xs IH]; simpl; [reflexivity|].
  now rewrite H, IH.
Qed.

Lemma pick_map_none {A B} (g : A -> event) (f : event -> option B) (xs : list A) :
  (forall x, f (g x) = None) -> pick f (map g xs) = [].
Proof.
  intros H. induction xs as [|x xs IH]; simpl; [reflexivity|].
  now rewrite H, IH.
Qed.

(** The trace of [get-console.py] once its second click (Playwright
    call 7) has returned.  The console events handled before the file is
    written are those dispatched during calls 4 to 7: [goto],
    [wait_for_load_state] and the two clicks. *)
Lemma get_console_trace (w : World) :
  (forall k, k <= 7 -> pw_fails w k = None) ->
  trace_of (main GetConsolePy) w
  = [ Done Start; Done (Launch false); Done BrowserNewPage; Done (On console);
      Out (lit "Navigating..."); Done (Goto token_url);
      Done (WaitForLoadState networkidle); Sleep 2000;
      Out (lit "Clicking RSI...");
      Done (Click (button_has_text "Indicators")); Sleep 500;
      Done (Click (button_has_text "RSI")); Sleep 2000;
      Out (nl ++ lit "=== CONSOLE LOGS (CandleChart layout) ===") ]
    ++ map (fun m => Out (msg_text m))
           (filter (fun m => contains layout_tag (msg_text m))
                   (flat_map (pw_console w) [4; 5; 6; 7]))
    ++ [ FileOpen GetConsole.log_path (lit "w") ]
    ++ map (fun m => FileWrite GetConsole.log_path (GetConsole.file_line m))
           (flat_map (pw_console w) [4; 5; 6; 7])
    ++ [ FileClose GetConsole.log_path;
         Out (nl ++ lit "Logs saved to /tmp/console-logs.txt");
         Out (lit "Close browser to exit...");
         Input (lit "Press Enter...");
         match pw_fails w 8 with Some e => Failed Close e | None => Done Close end;
         Stop ].
Proof.
  intros Hc. unfold trace_of. run_calm w Hc.
  destruct (pw_fails w 8); step_state; rewrite get_console_dispatch; step_state;
    cbn [flat_map]; rewrite app_nil_r; rewrite <- !app_assoc; reflexivity.
Qed.

(** The list [console_messages] when [get-console.py] returns: all the
    console events of the run, in arrival order. *)
Lemma get_console_collects (w : World) :
  returns GetConsolePy w ->
  console_messages (heap (snd (run (main GetConsolePy) w)))
  = flat_map (pw_console w) [4; 5; 6; 7; 8].
Proof.
  intros Hr. pose proof (returns_calm _ _ Hr) as Hc. unfold calm in Hc.
  change (ncalls (plan GetConsolePy)) with 8 in Hc.
  run_calm w Hc.
  cbn [flat_map]. rewrite app_nil_r. rewrite <- !app_assoc. reflexivity.
Qed.

Lemma pystr_eqb_refl (a : pystr) : pystr_eqb a a = true.
Proof. now apply pystr_eqb_spec. Qed.


(** A page that logs one layout line and one error while it loads. *)
Definition chatty_world : World :=
  {| argv := []; environ := []; stdin_line := [];
     pw_fails := fun _ => None;
     pw_console := fun k =>
       if Nat.eqb k 4
       then [ {| msg_type := lit "log"; msg_text := lit "CandleChart layout: 400" |};
              {| msg_type := lit "error"; msg_text := lit "boom" |} ]
       else [];
     pw_count := fun _ => 2;
     pw_html := fun _ => lit "<div>RSI</div>";
     tolower_full := fun c => [ascii_lower c];
     final_sigma := fun _ _ => false |}.


(** ** Lower-casing and the search for 'rsi' *)

Definition is_ascii (s : pystr) : Prop := Forall (fun c => (c < 128)%N) s.

(** Lower-casing a string lower-cases what follows a prefix of it in
    the context of that prefix. *)
Lemma lower_from_app (w : World) (a b : pystr) :
  forall before, exists x,
    lower_from w before (a ++ b) = x ++ lower_from w (before ++ a) b.
Proof.
  induction a as [|c a IH]; intros before; simpl.
  - exists []. now rewrite app_nil_r.
  - destruct (IH (before ++ [c])) as [x Hx]. rewrite Hx, <- app_assoc.
    exists (lower_ucs4 w before c (a ++ b) ++ x). now rewrite <- app_assoc.
Qed.

(** On ASCII code points [str.lower] is ASCII lower-casing, whatever the
    context. *)
Lemma lower_from_ascii (w : World) (v post : pystr) :
  ascii_table w -> is_ascii v ->
  forall before,
    lower_from w before (v ++ post)
    = map ascii_lower v ++ lower_from w (before ++ v) post.
Proof.
  intros Hw Hv. induction Hv as [|c v Hc _ IH]; intros before; simpl.
  - now rewrite app_nil_r.
  - rewrite IH, <- app_assoc. unfold lower_ucs4.
    destruct (N.eqb_spec c 931) as [->|_]; [lia|].
    now rewrite (Hw c Hc).
Qed.

(** An ASCII word in any mix of cases occurs lower-cased in the
    lower-cased string. *)
Lemma lower_keeps_ascii_word (w : World) (pre v post : pystr) :
  ascii_table w -> is_ascii v ->
  occurs_in (map ascii_lower v) (lower w (pre ++ v ++ post)).
Proof.
  intros Hw Hv. unfold lower.
  destruct (lower_from_app w pre (v ++ post) []) as [x Hx].
  rewrite Hx, (lower_from_ascii w v post Hw Hv).
  exists x, (lower_from w (([] ++ pre) ++ v) post). reflexivity.
Qed.

(** On an ASCII string [str.lower] is ASCII lower-casing. *)
Lemma lower_ascii (w : World) (s : pystr) :
  ascii_table w -> is_ascii s -> lower w s = map ascii_lower s.
Proof.
  intros Hw Hs. unfold lower.
  rewrite <- (app_nil_r s) at 1.
  rewrite (lower_from_ascii w s [] Hw Hs). simpl. apply app_nil_r.
Qed.

(** A word occurs in a lower-cased ASCII string exactly when one of its
    case variants occurs in the string. *)
Lemma occurs_in_map (f : N -> N) (word s : pystr) :
  occurs_in word (map f s) <->
  exists pre v post, s = pre ++ v ++ post /\ map f v = word.
Proof.
  unfold occurs_in. split.
  - intros (a & b & H).
    apply map_eq_app in H. destruct H as (pre & rest & -> & <- & H).
    apply map_eq_app in H. destruct H as (v & post & -> & <- & <-).
    exists pre, v, post. auto.
  - intros (pre & v & post & -> & <-).
    exists (map f pre), (map f post). now rewrite !map_app.
Qed.

(** Run on after the calls known to return: any later call may raise. *)
Ltac run_on w :=
  repeat (match goal with
          | |- context [pw_fails w ?k] => destruct (pw_fails w k)
          end;
          step_state; rewrite ?dispatch_no_listener; step_state).

Ltac in_trace H :=
  repeat (destruct H as [H|H];
          [first [discriminate H | vm_compute in H; discriminate H | idtac]|]).

Ltac find_in_trace := simpl; repeat first [left; reflexivity | right].

(** Which of the two report lines a run of [debug-indicators.py] prints
    once [page.content()] (Playwright call 10) has returned. *)
Lemma debug_indicators_report (w : World) :
  (forall k, k <= 10 -> pw_fails w k = None) ->
  (In (Out DebugIndicators.found_line) (trace_of (main DebugIndicatorsPy) w)
   <-> contains (lit "rsi") (lower w (pw_html w 10)) = true) /\
  (In (Out DebugIndicators.not_found_line) (trace_of (main DebugIndicatorsPy) w)
   <-> contains (lit "rsi") (lower w (pw_html w 10)) = false).
Proof.
  intros Hc. unfold trace_of. run_calm w Hc.
  unfold DebugIndicators.report_rsi.
  destruct (contains (lit "rsi") (lower w (pw_html w 10))); step_state; run_on w;
    (split;
     (split; intros H;
      [ first [ reflexivity | exfalso; in_trace H; exact H ]
      | first [ discriminate H | find_in_trace ] ])).
Qed.

(** C10.  Once [page.content()] has returned the HTML, a run of
    [debug-indicators.py] prints the found line exactly when 'rsi'
    occurs in the lower-cased HTML, and the not-found line exactly when
    it does not; so an occurrence of 'rsi' in any mix of upper and lower
    case ('RSI', 'Rsi', ...) counts as found, and on an ASCII page the
    found line is printed exactly when some case variant of 'rsi'
    occurs in the HTML. *)
Theorem rsi_search_ignores_case (w : World) :
  (forall k, k <= 10 -> pw_fails w k = None) ->
  (In (Out (check_mark ++ lit " 'rsi' found in page HTML"))
      (trace_of (main DebugIndicatorsPy) w)
   <-> occurs_in (lit "rsi") (lower w (pw_html w 10))) /\
  (In (Out (ballot_x ++ lit " 'rsi' NOT found in page HTML"))
      (trace_of (main DebugIndicatorsPy) w)
   <-> ~ occurs_in (lit "rsi") (lower w (pw_html w 10))) /\
  (ascii_table w ->
   forall pre v post,
     pw_html w 10 = pre ++ v ++ post -> is_ascii v -> map ascii_lower v = lit "rsi" ->
     In (Out (check_mark ++ lit " 'rsi' found in page HTML"))
        (trace_of (main DebugIndicatorsPy) w)) /\
  (ascii_table w -> is_ascii (pw_html w 10) ->
   (In (Out (check_mark ++ lit " 'rsi' found in page HTML"))
       (trace_of (main DebugIndicatorsPy) w)
    <-> exists pre v post,
          pw_html w 10 = pre ++ v ++ post /\ map ascii_lower v = lit "rsi")).
Proof.
  intros Hc. destruct (debug_indicators_report w Hc) as [Hf Hn].
  change (check_mark ++ lit " 'rsi' found in page HTML")
    with DebugIndicators.found_line.
  change (ballot_x ++ lit " 'rsi' NOT found in page HTML")
    with DebugIndicators.not_found_line.
  split; [|split; [|split]].
  - rewrite Hf. apply contains_spec.
  - rewrite Hn, <- contains_spec.
    destruct (contains (lit "rsi") (lower w (pw_html w 10))); split; congruence.
  - intros Hw pre v post Hhtml Hv Hrsi. apply Hf. rewrite Hhtml, <- Hrsi.
    apply contains_spec. now apply lower_keeps_ascii_word.
  - intros Hw Hhtml. rewrite Hf, contains_spec, (lower_ascii w _ Hw Hhtml).
    apply occurs_in_map.
Qed.

(** A page whose HTML spells the indicator in upper case. *)
Lemma rsi_search_ignores_case_witness :
  In (Out (check_mark ++ lit " 'rsi' found in page HTML"))
     (trace_of (main DebugIndicatorsPy) chatty_world).
Proof.
  destruct (rsi_search_ignores_case chatty_world) as (_ & _ & H & _).
  - intros k _. reflexivity.
  - apply (H (fun c _ => eq_refl) (lit "<div>") (lit "RSI") (lit "</div>")).
    + reflexivity.
    + repeat constructor.
    + reflexivity.
Defined.

(** * Further properties of the scripts *)

(** ** The order of steps in the other three scripts *)

(** The navigation, clicks and screenshots of each script, in source
    order. *)
Definition script_steps (s : script) : list call :=
  match s with
  | TestIndicatorsPy => test_indicators_steps
  | DebugIndicatorsPy =>
      [ Goto (lit "http://localhost:3005/token/token-7");
        Click (button_has_text "Indicators");
        Click (button_has_text "RSI");
        Screenshot (lit "/tmp/chart-bottom-zoom.png") false ]
  | CaptureConsolePy | GetConsolePy =>
      [ Goto (lit "http://localhost:3005/token/token-7");
        Click (button_has_text "Indicators");
        Click (button_has_text "RSI") ]
  end.

(** X1.  [debug-indicators.py], [capture-console.py] and
    [get-console.py] each navigate once, then click 'Indicators', then
    'RSI' ([debug-indicators.py] then takes its one screenshot): a run
    that returns performs exactly these steps in this order, and any
    run performs an initial part of them. *)
Theorem other_scripts_are_linear (s : script) (w : World) :
  s <> TestIndicatorsPy ->
  (returns s w -> ui_steps (trace_of (main s) w) = script_steps s) /\
  (exists rest, ui_steps (trace_of (main s) w) ++ rest = script_steps s).
Proof.
  intros Hs. unfold returns, ui_steps.
  rewrite <- (pick_skeleton ui_step ui_step_on_control).
  revert w. apply (every_run s (fun tr r =>
    (r = Ret tt -> pick ui_step tr = script_steps s) /\
    (exists rest, pick ui_step tr ++ rest = script_steps s))).
  intros tr r Hsh.
  destruct s; [now contradiction Hs | | |];
    destruct Hsh as [|x|j c x Hc];
    try each_call Hc j;
    (split; [intros Hr; try discriminate Hr; vm_compute; reflexivity
            | apply prefix_by_skipn; vm_compute; reflexivity]).
Qed.

Lemma other_scripts_are_linear_witness :
  ui_steps (trace_of (main DebugIndicatorsPy) still_world)
  = script_steps DebugIndicatorsPy.
Proof.
  apply (other_scripts_are_linear DebugIndicatorsPy still_world).
  - discriminate.
  - reflexivity.
Defined.

(** ** Fixed targets *)

(** A call with a target fixed in the source: a headed launch, the
    token page, or the first button with one of the four labels. *)
Definition fixed_target (e : event) : bool :=
  match call_of e with
  | Some (Launch headless) => negb headless
  | Some (Goto url) => pystr_eqb url (lit "http://localhost:3005/token/token-7")
  | Some (Click sel) =>
      existsb (fun label => pystr_eqb sel (button_has_text label))
              ["Indicators"; "RSI"; "MACD"; "Stoch RSI"]%string
  | _ => true
  end.

Lemma forallb_skeleton (f : event -> bool) (tr : list event) :
  (forall e, is_control e = false -> f e = true) ->
  forallb f tr = forallb f (skeleton tr).
Proof.
  intros Hf. induction tr as [|e tr IH]; simpl; [reflexivity|].
  destruct (is_control e) eqn:E; simpl; rewrite IH; [reflexivity|].
  now rewrite (Hf e E).
Qed.

Lemma fixed_target_every_run (s : script) (w : World) :
  forallb fixed_target (trace_of (main s) w) = true.
Proof.
  rewrite (forallb_skeleton fixed_target)
    by (intros [] H; try reflexivity; discriminate H).
  revert w. apply (every_run s (fun tr _ => forallb fixed_target tr = true)).
  intros tr r Hsh.
  destruct s; destruct Hsh as [|x|j c x Hc];
    try each_call Hc j; vm_compute; reflexivity.
Qed.

(** X2.  In every run of every script, whatever the browser does: the
    browser is launched headed ([headless=False]), the only address
    navigated to is [http://localhost:3005/token/token-7], and every
    click goes to the first button whose text matches 'Indicators',
    'RSI', 'MACD' or 'Stoch RSI'.  This holds for the calls that raise
    as well as for those that return. *)
Theorem targets_are_fixed (s : script) (w : World) (e : event) :
  In e (trace_of (main s) w) ->
  (forall headless, call_of e = Some (Launch headless) -> headless = false) /\
  (forall url, call_of e = Some (Goto url) ->
               url = lit "http://localhost:3005/token/token-7") /\
  (forall sel, call_of e = Some (Click sel) ->
               exists label,
                 In label ["Indicators"; "RSI"; "MACD"; "Stoch RSI"]%string /\
                 sel = lit "button:has-text(" ++ dq ++ lit label ++ dq ++ lit ")").
Proof.
  intros Hin. pose proof (fixed_target_every_run s w) as H.
  rewrite forallb_forall in H. specialize (H e Hin). unfold fixed_target in H.
  split; [|split].
  - intros h Hc. rewrite Hc in H. now destruct h.
  - intros url Hc. rewrite Hc in H. now apply pystr_eqb_spec.
  - intros sel Hc. rewrite Hc in H. apply existsb_exists in H.
    destruct H as (label & Hl & Heq). exists label. split; [exact Hl|].
    now apply pystr_eqb_spec.
Qed.

Lemma targets_are_fixed_witness :
  In (Failed (Goto token_url) timeout_error)
     (trace_of (main TestIndicatorsPy) (failing_at 3 timeout_error)) /\
  token_url = lit "http://localhost:3005/token/token-7".
Proof.
  assert (Hin : In (Failed (Goto token_url) timeout_error)
                   (trace_of (main TestIndicatorsPy) (failing_at 3 timeout_error)))
    by (vm_compute; tauto).
  split; [exact Hin|].
  exact (proj1 (proj2 (targets_are_fixed TestIndicatorsPy (failing_at 3 timeout_error)
                         (Failed (Goto token_url) timeout_error) Hin))
           token_url eq_refl).
Defined.

(** ** Time spent in fixed pauses *)

(** The milliseconds of a fixed pause that was sat through. *)
Definition pause_of (e : event) : option N :=
  match e with
  | Sleep ms => Some ms
  | Done (WaitForTimeout ms) => Some ms
  | _ => None
  end.

Definition paused (tr : list event) : N := fold_right N.add 0%N (pick pause_of tr).

Lemma pause_on_control : on_control pause_of.
Proof. on_control_tac. Qed.

(** The pauses written in each script: 2 + 0.5 + 1 + 1 + 1 seconds and
    a 1000 ms page timeout in [test-indicators.py], 4.5 seconds in each
    of the others. *)
Definition pause_budget (s : script) : N :=
  match s with
  | TestIndicatorsPy => 6500
  | DebugIndicatorsPy | CaptureConsolePy | GetConsolePy => 4500
  end.

(** X3.  A run that returns has spent exactly 6.5 seconds
    ([test-indicators.py]) or 4.5 seconds (the other scripts) in fixed
    pauses; a run cut short by a failure has spent at most that.  (The
    wait for the 'networkidle' load state comes on top and has no
    fixed length.) *)
Theorem fixed_pauses_add_up (s : script) (w : World) :
  (paused (trace_of (main s) w) <= pause_budget s)%N /\
  (returns s w -> paused (trace_of (main s) w) = pause_budget s).
Proof.
  unfold returns, paused.
  rewrite <- (pick_skeleton pause_of pause_on_control).
  revert w. apply (every_run s (fun tr r =>
    (fold_right N.add 0%N (pick pause_of tr) <= pause_budget s)%N /\
    (r = Ret tt -> fold_right N.add 0%N (pick pause_of tr) = pause_budget s))).
  intros tr r Hsh.
  destruct s; destruct Hsh as [|x|j c x Hc];
    try each_call Hc j;
    (split; [vm_compute; discriminate
            | intros Hr; try discriminate Hr; vm_compute; reflexivity]).
Qed.

Lemma fixed_pauses_add_up_witness :
  paused (trace_of (main TestIndicatorsPy) still_world) = 6500%N.
Proof.
  apply (fixed_pauses_add_up TestIndicatorsPy still_world). reflexivity.
Defined.

(** ** Scripts that never listen to the console *)

(** The world [w] with other console traffic. *)
Definition with_console (w : World) (c : nat -> list ConsoleMessage) : World :=
  {| argv := argv w; environ := environ w; stdin_line := stdin_line w;
     pw_fails := pw_fails w; pw_console := c;
     pw_count := pw_count w; pw_html := pw_html w;
     tolower_full := tolower_full w; final_sigma := final_sigma w |}.

(** Two runs against pages that differ at most in what they log. *)
Definition same_but_console (w1 w2 : World) : Prop :=
  argv w1 = argv w2 /\ environ w1 = environ w2 /\
  stdin_line w1 = stdin_line w2 /\
  pw_fails w1 = pw_fails w2 /\
  pw_count w1 = pw_count w2 /\
  pw_html w1 = pw_html w2 /\
  tolower_full w1 = tolower_full w2 /\
  final_sigma w1 = final_sigma w2.

(** A computation that, started without handlers, registers none and
    does the same whatever the page logs. *)
Definition deaf {A} (m : M A) : Prop :=
  forall w c s, listeners s = [] ->
    m (with_console w c) s = m w s /\ listeners (snd (m w s)) = [].

Lemma deaf_ret {A} (a : A) : deaf (ret a).
Proof. intros w c s Hs. auto. Qed.

Lemma deaf_bind {A B} (m : M A) (k : A -> M B) :
  deaf m -> (forall a, deaf (k a)) -> deaf (bind m k).
Proof.
  intros Hm Hk w c s Hs. unfold bind.
  destruct (Hm w c s Hs) as [E Hl]. rewrite E.
  destruct (m w s) as [[a|e] s']; simpl in *; [apply Hk; exact Hl | auto].
Qed.

Lemma deaf_pw {A} (cl : call) (res : World -> nat -> A) :
  (forall w c k, res (with_console w c) k = res w k) -> deaf (pw cl res).
Proof.
  intros Hres w c s Hs. unfold pw. simpl. rewrite Hs, !dispatch_no_listener, Hres.
  destruct (pw_fails w (pw_calls s)); auto.
Qed.

Lemma deaf_on_heap (f : Heap -> Heap) : deaf (on_heap f).
Proof. intros w c s Hs. auto. Qed.

Lemma lower_from_deaf (w : World) (c : nat -> list ConsoleMessage) (s : pystr) :
  forall before, lower_from (with_console w c) before s = lower_from w before s.
Proof. induction s as [|x s IH]; intros before; simpl; [|rewrite IH]; reflexivity. Qed.

Lemma deaf_report_rsi (html : pystr) : deaf (DebugIndicators.report_rsi html).
Proof.
  intros w c s Hs. unfold DebugIndicators.report_rsi, lower.
  rewrite lower_from_deaf.
  destruct (contains (lit "rsi") (lower_from w [] html)); auto.
Qed.

Lemma deaf_with_sync_playwright {A} (body : M A) :
  deaf body -> deaf (with_sync_playwright body).
Proof.
  intros Hb w c s Hs. unfold with_sync_playwright.
  destruct (deaf_pw Start (fun _ _ => tt) (fun _ _ _ => eq_refl) w c s Hs) as [E Hl].
  unfold pw_. rewrite E.
  destruct (pw Start (fun _ _ => tt) w s) as [[[]|e] s']; simpl in *; [|auto].
  destruct (Hb w c s' Hl) as [E' Hl']. rewrite E'.
  destruct (body w s') as [r s'']. simpl in *. auto.
Qed.

Ltac deaf_step :=
  first
    [ apply deaf_pw; reflexivity
    | apply deaf_on_heap
    | apply deaf_ret
    | apply deaf_report_rsi ].

Ltac deaf_seq :=
  lazymatch goal with
  | |- deaf (bind _ _) => apply deaf_bind; [deaf_step | intros ?; deaf_seq]
  | |- _ => deaf_step
  end.

Lemma test_indicators_deaf : deaf TestIndicators.test_indicators.
Proof.
  unfold TestIndicators.test_indicators. apply deaf_with_sync_playwright. deaf_seq.
Qed.

Lemma debug_indicators_deaf : deaf DebugIndicators.debug_indicators.
Proof.
  unfold DebugIndicators.debug_indicators. apply deaf_with_sync_playwright. deaf_seq.
Qed.

(** [capture-console.py] does listen: a layout log changes its trace. *)
Lemma capture_console_listens :
  trace_of (main CaptureConsolePy)
    (with_console still_world
       (fun _ => [ {| msg_type := lit "log"; msg_text := lit "CandleChart layout: 1" |} ]))
  <> trace_of (main CaptureConsolePy) still_world.
Proof. vm_compute. discriminate. Qed.

(** X4.  [test-indicators.py] and [debug-indicators.py] never register
    a console handler, so nothing the page logs reaches them: two runs
    against pages that differ only in their console messages have the
    same result and the same trace.  This covers the one-second wait
    after 'Checking console logs...' in [test-indicators.py] and the
    [console.log] calls that [debug-indicators.py] injects with
    [page.evaluate]: their output is never read. *)
Theorem console_is_never_read (s : script) (w1 w2 : World) :
  s = TestIndicatorsPy \/ s = DebugIndicatorsPy ->
  same_but_console w1 w2 ->
  result_of (main s) w1 = result_of (main s) w2 /\
  trace_of (main s) w1 = trace_of (main s) w2.
Proof.
  intros Hs (H1 & H2 & H3 & H4 & H5 & H6 & H7 & H8).
  assert (Hd : deaf (main s))
    by (destruct Hs as [-> | ->];
        [exact test_indicators_deaf | exact debug_indicators_deaf]).
  assert (E : run (main s) w1 = run (main s) w2).
  { destruct w1 as [a1 e1 i1 f1 c1 n1 h1 t1 g1], w2 as [a2 e2 i2 f2 c2 n2 h2 t2 g2].
    simpl in *. subst. unfold run.
    set (w := {| argv := a2; environ := e2; stdin_line := i2; pw_fails := f2;
                 pw_console := c2; pw_count := n2; pw_html := h2;
                 tolower_full := t2; final_sigma := g2 |}).
    exact (proj1 (Hd w c1 init_state eq_refl)). }
  unfold result_of, trace_of. rewrite E. auto.
Qed.

Lemma console_is_never_read_witness :
  result_of (main DebugIndicatorsPy)
    (with_console still_world
       (fun _ => [ {| msg_type := lit "error"; msg_text := lit "boom" |} ]))
  = result_of (main DebugIndicatorsPy) still_world /\
  trace_of (main DebugIndicatorsPy)
    (with_console still_world
       (fun _ => [ {| msg_type := lit "error"; msg_text := lit "boom" |} ]))
  = trace_of (main DebugIndicatorsPy) still_world.
Proof.
  apply (console_is_never_read DebugIndicatorsPy).
  - right. reflexivity.
  - repeat split; reflexivity.
Defined.

(** ** The first call that raises *)




(** ** What get-console.py saves, and when *)



(** X6.  The handler of [get-console.py] stays registered until the
    browser is closed, but the file is written before: in a run that
    returns, the messages handled while [browser.close()] runs are
    appended to [console_messages] after the others and are not written
    to the file. *)
Theorem late_messages_are_not_logged (w : World) :
  returns GetConsolePy w ->
  console_messages (heap (snd (run (main GetConsolePy) w)))
  = flat_map (pw_console w) [4; 5; 6; 7] ++ pw_console w 8 /\
  writes_to (lit "/tmp/console-logs.txt") (trace_of (main GetConsolePy) w)
  = map GetConsole.file_line (flat_map (pw_console w) [4; 5; 6; 7]).
Proof.
  intros Hr. split.
  - rewrite (get_console_collects w Hr). cbn [flat_map].
    rewrite !app_nil_r, <- !app_assoc. reflexivity.
  - pose proof (returns_calm _ _ Hr) as Hc. unfold calm in Hc.
    assert (Hc7 : forall k, k <= 7 -> pw_fails w k = None)
      by (intros k Hk; apply Hc; simpl; lia).
    unfold writes_to. rewrite (get_console_trace w Hc7), !pick_app.
    rewrite (pick_map_none (fun m => Out (msg_text m))) by reflexivity.
    rewrite (pick_map_some _ _ GetConsole.file_line)
      by (intros m; cbv beta; unfold write_to, GetConsole.log_path;
          now rewrite pystr_eqb_refl).
    destruct (pw_fails w 8); simpl; rewrite app_nil_r; reflexivity.
Qed.

(** A page that logs once while it loads and once while it closes. *)
Definition closing_world : World :=
  {| argv := []; environ := []; stdin_line := [];
     pw_fails := fun _ => None;
     pw_console := fun k =>
       if Nat.eqb k 4 then [ {| msg_type := lit "log"; msg_text := lit "early" |} ]
       else if Nat.eqb k 8 then [ {| msg_type := lit "log"; msg_text := lit "late" |} ]
       else [];
     pw_count := fun _ => 0;
     pw_html := fun _ => [];
     tolower_full := fun c => [ascii_lower c];
     final_sigma := fun _ _ => false |}.

Lemma late_messages_are_not_logged_witness :
  console_messages (heap (snd (run (main GetConsolePy) closing_world)))
  = [ {| msg_type := lit "log"; msg_text := lit "early" |};
      {| msg_type := lit "log"; msg_text := lit "late" |} ] /\
  writes_to (lit "/tmp/console-logs.txt") (trace_of (main GetConsolePy) closing_world)
  = [ lit "log: early" ++ nl ].
Proof.
  destruct (late_messages_are_not_logged closing_world eq_refl) as [H1 H2].
  rewrite H1, H2. split; reflexivity.
Defined.

(** ** What capture-console.py prints *)





(** ** Reading the log file back *)






(** ** What the progress lines of test-indicators.py tell *)

(** The lines that [test-indicators.py] prints right after a step, with
    the step. *)
Definition confirmations : list (pystr * call) :=
  [ (check_mark ++ lit " Took screenshot before enabling indicators",
     Screenshot (lit "/tmp/01-before-indicators.png") false);
    (check_mark ++ lit " Clicked Indicators button",
     Click (button_has_text "Indicators"));
    (check_mark ++ lit " Clicked RSI button",
     Click (button_has_text "RSI"));
    (check_mark ++ lit " Took screenshot after enabling RSI",
     Screenshot (lit "/tmp/02-after-rsi.png") false);
    (check_mark ++ lit " Clicked MACD button",
     Click (button_has_text "MACD"));
    (check_mark ++ lit " Took screenshot after enabling MACD",
     Screenshot (lit "/tmp/03-after-macd.png") false);
    (check_mark ++ lit " Clicked Stoch RSI button",
     Click (button_has_text "Stoch RSI"));
    (check_mark ++ lit " Took screenshot with all indicators enabled",
     Screenshot (lit "/tmp/04-all-indicators.png") false) ].

Ltac settle H := in_trace H; first [contradiction | find_in_trace].

Ltac settle_iff :=
  split;
  (let H := fresh "H" in
   intros H; first [reflexivity | discriminate H | settle H]).

(** X9.  In every run of [test-indicators.py], whatever fails, a check
    mark line is on the terminal exactly when the step it reports has
    returned: no click or screenshot is confirmed that did not happen,
    and none that happened goes unconfirmed.  The closing summary
    ('=== Test Complete ===') is printed exactly when the run returns;
    in particular it is missing when [browser.close()] raises, although
    all four screenshots were written. *)
Theorem check_marks_are_truthful (w : World) :
  (forall line c,
      In (line, c) confirmations ->
      (In (Out line) (trace_of (main TestIndicatorsPy) w)
       <-> In (Done c) (trace_of (main TestIndicatorsPy) w))) /\
  (In (Out (nl ++ lit "=== Test Complete ===")) (trace_of (main TestIndicatorsPy) w)
   <-> returns TestIndicatorsPy w).
Proof.
  unfold returns, result_of, trace_of. unfold_script. step_state.
  run_on w.
  all: split.
  all: try (intros line c Hin; simpl in Hin;
            repeat (destruct Hin as [Hin|Hin]; [injection Hin as <- <- |]);
            [..|contradiction]).
  all: settle_iff.
Qed.

Lemma check_marks_are_truthful_witness :
  In (Out (check_mark ++ lit " Clicked RSI button"))
     (trace_of (main TestIndicatorsPy) (failing_at 9 timeout_error))
  <-> In (Done (Click (button_has_text "RSI")))
         (trace_of (main TestIndicatorsPy) (failing_at 9 timeout_error)).
Proof.
  refine (proj1 (check_marks_are_truthful (failing_at 9 timeout_error)) _ _ _).
  unfold confirmations. right. right. left. reflexivity.
Defined.

(** ** What debug-indicators.py prints *)

(** X10.  The terminal output of a run of [debug-indicators.py] that
    returns: each 'Found N ...' line carries the number of elements its
    own locator matched, in decimal; one report line for the 'rsi'
    search; and nothing between '=== Checking Console ===' and
    '=== Debug Complete ===', since the messages logged by the injected
    script are not collected.  In any run, the line
    'Screenshot saved: ...' is printed exactly when the run returns. *)
Theorem debug_indicators_output (w : World) :
  (returns DebugIndicatorsPy w ->
   stdout (trace_of (main DebugIndicatorsPy) w)
   = [ lit "Navigating to token page...";
       lit "Clicking Indicators button...";
       lit "Clicking RSI button...";
       nl ++ lit "=== Checking DOM for RSI subchart ===";
       lit "Found " ++ str_of_nat (pw_count w 7) ++ lit " elements with 'RSI' text";
       lit "Found " ++ str_of_nat (pw_count w 8) ++ lit " chart-related elements";
       lit "Found " ++ str_of_nat (pw_count w 9) ++ lit " recharts-wrapper elements";
       (if contains (lit "rsi") (lower w (pw_html w 10))
        then check_mark ++ lit " 'rsi' found in page HTML"
        else ballot_x ++ lit " 'rsi' NOT found in page HTML");
       lit "Found " ++ str_of_nat (pw_count w 11) ++ lit " ResponsiveContainer elements";
       nl ++ lit "=== Checking Console ===";
       nl ++ lit "=== Debug Complete ===";
       lit "Screenshot saved: /tmp/chart-bottom-zoom.png" ]) /\
  (In (Out (lit "Screenshot saved: /tmp/chart-bottom-zoom.png"))
      (trace_of (main DebugIndicatorsPy) w)
   <-> returns DebugIndicatorsPy w).
Proof.
  split.
  - intros Hr. pose proof (returns_calm _ _ Hr) as Hc. unfold calm in Hc.
    change (ncalls (plan DebugIndicatorsPy)) with 14 in Hc.
    unfold trace_of. run_calm w Hc. unfold DebugIndicators.report_rsi.
    destruct (contains (lit "rsi") (lower w (pw_html w 10))); step_state;
      repeat (match goal with
              | |- context [pw_fails w ?k] => rewrite (Hc k) by (simpl; lia)
              end;
              step_state; rewrite ?dispatch_no_listener; step_state);
      reflexivity.
  - unfold returns, result_of, trace_of. unfold_script. step_state.
    unfold DebugIndicators.report_rsi.
    repeat (first
              [ match goal with
                | |- context [pw_fails w ?k] => destruct (pw_fails w k)
                end
              | match goal with
                | |- context [contains ?a ?b] => destruct (contains a b)
                end ];
            step_state; rewrite ?dispatch_no_listener; step_state).
    all: settle_iff.
Qed.

Lemma debug_indicators_output_witness :
  stdout (trace_of (main DebugIndicatorsPy) chatty_world)
  = [ lit "Navigating to token page...";
      lit "Clicking Indicators button...";
      lit "Clicking RSI button...";
      nl ++ lit "=== Checking DOM for RSI subchart ===";
      lit "Found 2 elements with 'RSI' text";
      lit "Found 2 chart-related elements";
      lit "Found 2 recharts-wrapper elements";
      check_mark ++ lit " 'rsi' found in page HTML";
      lit "Found 2 ResponsiveContainer elements";
      nl ++ lit "=== Checking Console ===";
      nl ++ lit "=== Debug Complete ===";
      lit "Screenshot saved: /tmp/chart-bottom-zoom.png" ].
Proof.
  rewrite (proj1 (debug_indicators_output chatty_world) eq_refl). reflexivity.
Defined.
